(** * GazeTrack: the gaze-data analyzer of [HuggingFace_Space_Files/app.py]

    A shallow embedding of [analyze_gaze_data], [calculate_attention_score]
    and [get_score_description], together with the fragment of Python,
    NumPy, pandas and [json] semantics that these three functions rely on.

    Numbers are modelled as the code has them: Python [int] as [Z],
    [numpy.int64] as [Z] with its 64-bit wrap-around written out, and
    Python [float] / [numpy.float64] as the kernel's binary64 [float]
    (IEEE 754, round to nearest even), whose operations are specified by
    [SpecFloat] through the axioms of [FloatAxioms].  Exceptions are values
    of an error monad; the single [try]/[except] of the source is the one
    place where they are inspected.

    The CSV parser is pandas code: [pd.read_csv] is a parameter of the
    pipeline, and a parsed table is a list of typed columns.  The text
    that [json.dumps] returns is represented by the JSON document it
    spells. *)

From Stdlib Require Import ZArith Zpower List String Ascii Bool Lia.
From Stdlib Require Import Floats.
From Stdlib Require Uint63.
Import ListNotations.

#[local] Set Warnings "-inexact-float,-register-all".

Local Open Scope string_scope.
Local Open Scope Z_scope.

(** ** Exceptions and the error monad *)

(** The exceptions that the pipeline can raise inside its [try] block.
    [ParserError] stands for whatever [pd.read_csv] raises (EmptyDataError,
    ParserError, ...); every one of them derives from [Exception]. *)
Inductive exn : Type :=
| ParserError (msg : string)
| KeyError (key : string)
| IndexError (msg : string)
| TypeError (msg : string)
| ValueError (msg : string)
| OverflowError (msg : string).

(** [str(e)]: a [KeyError] prints the [repr] of its key, the others their
    message. *)
Definition str_exn (e : exn) : string :=
  match e with
  | KeyError k => "'" ++ k ++ "'"
  | ParserError m | IndexError m | TypeError m | ValueError m
  | OverflowError m => m
  end.

Definition Exc (A : Type) : Type := (exn + A)%type.

Definition ret {A} (a : A) : Exc A := inr a.
Definition raise {A} (e : exn) : Exc A := inl e.
Definition bind {A B} (m : Exc A) (k : A -> Exc B) : Exc B :=
  match m with
  | inl e => inl e
  | inr a => k a
  end.

Notation "x <- m ;; k" := (bind m (fun x => k))
  (at level 61, m at next level, right associativity).

(** ** Numbers *)

(** A numeric scalar: a Python [int], a [numpy.int64], or a binary64 float
    (Python [float] and [numpy.float64] share representation, arithmetic,
    comparison and JSON encoding; [numpy.float64] derives from [float]). *)
Inductive num : Type :=
| PyInt (z : Z)
| NpInt (z : Z)
| Float (f : float).

Module Num.

(** Two's-complement wrap-around of [numpy.int64] arithmetic. *)
Definition wrap64 (z : Z) : Z :=
  (z + 2 ^ 63) mod 2 ^ 64 - 2 ^ 63.

(** Integer to binary64, correctly rounded. *)
Definition float_of_Z (z : Z) : float :=
  SF2Prim (binary_normalize prec emax z 0 false).

(** The float that an integer is converted to when it meets a float.  On
    a Python [int] from [2^1024] on the source raises [OverflowError]
    instead; [float_range] below is the domain without that exception. *)
Definition to_float (a : num) : float :=
  match a with
  | PyInt z | NpInt z => float_of_Z z
  | Float f => f
  end.

(** Binary arithmetic: int with int stays int ([numpy.int64] as soon as one
    operand is), anything with a float is a float. *)
Definition arith (zop : Z -> Z -> Z) (fop : float -> float -> float)
    (a b : num) : num :=
  match a, b with
  | PyInt x, PyInt y => PyInt (zop x y)
  | NpInt x, NpInt y | NpInt x, PyInt y | PyInt x, NpInt y =>
      NpInt (wrap64 (zop x y))
  | _, _ => Float (fop (to_float a) (to_float b))
  end.

Definition add : num -> num -> num := arith Z.add PrimFloat.add.
Definition sub : num -> num -> num := arith Z.sub PrimFloat.sub.
Definition mul : num -> num -> num := arith Z.mul PrimFloat.mul.

(** [a / b], true division: always a float. *)
Definition truediv (a b : num) : num :=
  Float (to_float a / to_float b).

(** [a ** 2], taken as the correctly rounded square. *)
Definition square (a : num) : num := mul a a.

(** [abs(a)]. *)
Definition abs (a : num) : num :=
  match a with
  | PyInt z => PyInt (Z.abs z)
  | NpInt z => NpInt (wrap64 (Z.abs z))
  | Float f => Float (PrimFloat.abs f)
  end.

(** Comparisons: exact on integers, IEEE on floats (every comparison with
    a NaN is false). *)
Definition ltb (a b : num) : bool :=
  match a, b with
  | (PyInt x | NpInt x), (PyInt y | NpInt y) => Z.ltb x y
  | _, _ => (to_float a <? to_float b)%float
  end.

Definition leb (a b : num) : bool :=
  match a, b with
  | (PyInt x | NpInt x), (PyInt y | NpInt y) => Z.leb x y
  | _, _ => (to_float a <=? to_float b)%float
  end.

Definition gtb (a b : num) : bool := ltb b a.
Definition geb (a b : num) : bool := leb b a.

(** The builtins [min(a, b)] and [max(a, b)]: the first argument is kept
    unless the second is strictly smaller (resp. larger). *)
Definition min (a b : num) : num := if ltb b a then b else a.
Definition max (a b : num) : num := if gtb b a then b else a.

End Num.

(** ** Float helpers: truncation and NumPy's rounding *)

(** The integer part of a finite binary64 value, rounded toward zero. *)
Definition trunc_SF (x : spec_float) : option Z :=
  match x with
  | S754_zero _ => Some 0
  | S754_finite s m e =>
      Some (cond_Zopp s
              match e with
              | Zneg p => Z.pos m / 2 ^ Z.pos p
              | _ => Z.pos m * 2 ^ e
              end)
  | S754_infinity _ | S754_nan => None
  end.

(** [int(x)]: the identity on integers, truncation toward zero on floats;
    a NaN raises [ValueError] and an infinity [OverflowError]. *)
Definition py_int (a : num) : Exc Z :=
  match a with
  | PyInt z | NpInt z => ret z
  | Float f =>
      match Prim2SF f with
      | S754_nan => raise (ValueError "cannot convert float NaN to integer")
      | S754_infinity _ =>
          raise (OverflowError "cannot convert float infinity to integer")
      | x => match trunc_SF x with
             | Some z => ret z
             | None => raise (ValueError "cannot convert float to integer")
             end
      end
  end.

Definition two52 : float := 4503599627370496%float.

(** [numpy.rint]: the nearest integer, ties to even, keeping the sign. *)
Definition rint (x : float) : float :=
  let ax := PrimFloat.abs x in
  if (ax <? two52)%float then
    let r := (ax + two52 - two52)%float in
    if get_sign x then (- r)%float else r
  else x.

(** [round(x, 2)] on a [numpy.float64], as NumPy rounds: scale, round to
    an integer, unscale.  The value is only displayed. *)
Definition np_round2 (x : float) : float :=
  (rint (x * 100) / 100)%float.

(** [round(a, 2)]: integers of either kind are returned with their type. *)
Definition py_round2 (a : num) : num :=
  match a with
  | PyInt z => PyInt z
  | NpInt z => NpInt z
  | Float f => Float (np_round2 f)
  end.

(** ** NumPy reductions on [float64] arrays *)

Module Np.

(** [numpy.sum]: the elements are added from left to right, which is what
    NumPy does on arrays of fewer than eight elements; on longer arrays it
    adds in blocks, with the same operands and possibly another last bit.
    The lemmas on [sum] below use only that every element enters the
    sum. *)
Definition sum (l : list float) : float :=
  match l with
  | [] => 0%float
  | x :: t => fold_left PrimFloat.add t x
  end.

Definition count (l : list float) : float :=
  Num.float_of_Z (Z.of_nat (List.length l)).

Definition mean (l : list float) : float :=
  (sum l / count l)%float.

(** [numpy.std] with [ddof = 0]: the square root of the mean of the squared
    deviations from the mean. *)
Definition std (l : list float) : float :=
  let arrmean := mean l in
  let x := map (fun v => (v - arrmean)%float) l in
  let x := map (fun v => (v * v)%float) x in
  PrimFloat.sqrt (sum x / count l)%float.

(** [numpy.sqrt] of a scalar. *)
Definition sqrt (a : num) : float := PrimFloat.sqrt (Num.to_float a).

(** Element-wise quotient of two arrays of one length. *)
Fixpoint divide (a b : list float) : Exc (list float) :=
  match a, b with
  | [], [] => ret []
  | x :: a', y :: b' =>
      r <- divide a' b' ;; ret ((x / y)%float :: r)
  | _, _ =>
      raise (ValueError "operands could not be broadcast together")
  end.

End Np.

(** ** The pandas fragment: columns, frames, reductions, row access *)

(** A cell read from a frame: a number, or a string (dtype [object]). *)
Inductive pyval : Type :=
| VNum (n : num)
| VStr (s : string).

(** A column with its dtype.  [pd.read_csv] infers [int64] for a column of
    integer literals, [float64] for decimal literals (also for [inf], and
    with NaN for an empty cell), and [object] when some cell is not
    numeric, or when the table has no row at all.  The other dtypes that
    pandas can infer ([uint64] for integers from [2^63] on, [bool], Python
    integers in an [object] column) are not part of the fragment: the
    properties below that depend on the dtype say so ([int64_frame]). *)
Inductive series : Type :=
| SInt (l : list Z)
| SFloat (l : list float)
| SObj (l : list string).

(** A frame: its columns in header order, all of one length. *)
Definition DataFrame : Type := list (string * series).

Module Pd.

Definition size (s : series) : nat :=
  match s with
  | SInt l => List.length l
  | SFloat l => List.length l
  | SObj l => List.length l
  end.

(** [len(df)]: the number of rows. *)
Definition len (df : DataFrame) : nat :=
  match df with
  | [] => O
  | (_, s) :: _ => size s
  end.

(** [df[name]]. *)
Fixpoint getitem (df : DataFrame) (name : string) : Exc series :=
  match df with
  | [] => raise (KeyError name)
  | (k, s) :: rest => if String.eqb k name then ret s else getitem rest name
  end.

Definition fold1 {A} (f : A -> A -> A) (l : list A) (dflt : A) : A :=
  match l with
  | [] => dflt
  | x :: t => fold_left f t x
  end.

Definition not_nan (x : float) : bool := negb (is_nan x).

Definition fmax (a b : float) : float := if (a <? b)%float then b else a.
Definition fmin (a b : float) : float := if (b <? a)%float then b else a.

Definition smax (a b : string) : string := if String.ltb a b then b else a.
Definition smin (a b : string) : string := if String.ltb b a then b else a.

(** [s.max()] and [s.min()] skip NaN; on an empty column, or one that
    holds only NaN, the result is NaN. *)
Definition max (s : series) : pyval :=
  match s with
  | SInt [] | SObj [] => VNum (Float nan)
  | SInt (x :: t) => VNum (NpInt (fold_left Z.max t x))
  | SFloat l => VNum (Float (fold1 fmax (filter not_nan l) nan))
  | SObj (x :: t) => VStr (fold_left smax t x)
  end.

Definition min (s : series) : pyval :=
  match s with
  | SInt [] | SObj [] => VNum (Float nan)
  | SInt (x :: t) => VNum (NpInt (fold_left Z.min t x))
  | SFloat l => VNum (Float (fold1 fmin (filter not_nan l) nan))
  | SObj (x :: t) => VStr (fold_left smin t x)
  end.

Inductive dtype : Type := int64 | float64 | object.

Definition dtype_of (s : series) : dtype :=
  match s with
  | SInt _ => int64
  | SFloat _ => float64
  | SObj _ => object
  end.

Definition is_object (d : dtype) : bool :=
  match d with object => true | _ => false end.
Definition is_float64 (d : dtype) : bool :=
  match d with float64 => true | _ => false end.

(** The dtype of a row taken across all columns: the common type of the
    column dtypes. *)
Definition row_dtype (df : DataFrame) : dtype :=
  let ds := map (fun c => dtype_of (snd c)) df in
  if existsb is_object ds then object
  else if existsb is_float64 ds then float64
  else int64.

Definition cell (s : series) (i : nat) : option pyval :=
  match s with
  | SInt l => option_map (fun z => VNum (NpInt z)) (nth_error l i)
  | SFloat l => option_map (fun f => VNum (Float f)) (nth_error l i)
  | SObj l => option_map VStr (nth_error l i)
  end.

Definition upcast (d : dtype) (v : pyval) : pyval :=
  match d, v with
  | float64, VNum n => VNum (Float (Num.to_float n))
  | _, _ => v
  end.

(** [df.iloc[i][name]]: the row is materialised in the row dtype, then
    indexed by label. *)
Definition iloc (df : DataFrame) (i : nat) (name : string) : Exc pyval :=
  if Nat.leb (len df) i then
    raise (IndexError "single positional indexer is out-of-bounds")
  else
    s <- getitem df name ;;
    match cell s i with
    | Some v => ret (upcast (row_dtype df) v)
    | None => raise (IndexError "index out of bounds")
    end.

Fixpoint diffZ (l : list Z) : list Z :=
  match l with
  | x :: (y :: _) as t => Num.wrap64 (y - x) :: diffZ t
  | _ => []
  end.

Fixpoint diffF (l : list float) : list float :=
  match l with
  | x :: (y :: _) as t => (y - x)%float :: diffF t
  | _ => []
  end.

End Pd.

Definition type_name (v : pyval) : string :=
  match v with
  | VNum (PyInt _) => "int"
  | VNum (NpInt _) => "numpy.int64"
  | VNum (Float _) => "float"
  | VStr _ => "str"
  end.

(** [a - b] on cells: strings do not subtract. *)
Definition val_sub (a b : pyval) : Exc num :=
  match a, b with
  | VNum x, VNum y => ret (Num.sub x y)
  | _, _ =>
      raise (TypeError ("unsupported operand type(s) for -: '"
                        ++ type_name a ++ "' and '" ++ type_name b ++ "'"))
  end.

(** [np.diff(s.values)], as the [float64] array it is converted to when it
    divides a [float64] array. *)
Definition np_diff (s : series) : Exc (list float) :=
  match s with
  | SInt l => ret (map Num.float_of_Z (Pd.diffZ l))
  | SFloat l => ret (Pd.diffF l)
  | SObj (x :: y :: _) => _ <- val_sub (VStr y) (VStr x) ;; ret []
  | SObj _ => ret []
  end.

(** ** [calculate_attention_score] *)

(** The four sub-scores, in the order of the source. *)

Definition duration_score (duration : num) : num :=
  if Num.leb (PyInt 10) duration && Num.leb duration (PyInt 30) then
    PyInt 25
  else if Num.gtb duration (PyInt 30) then
    Num.sub (PyInt 25)
      (Num.min (Num.mul (Num.sub duration (PyInt 30)) (Float 0.5)) (PyInt 15))
  else
    Num.mul duration (Float 2.5).

Definition stability_score (stability : num) : num :=
  Num.min (Num.mul stability (Float 0.3)) (PyInt 20).

Definition quality_score (points : num) : num :=
  Num.mul (Num.min (Num.truediv points (PyInt 100)) (PyInt 1)) (PyInt 15).

Definition movement_score (avg_movement : num) : num :=
  if Num.leb (PyInt 50) avg_movement && Num.leb avg_movement (PyInt 200) then
    PyInt 10
  else
    Num.max
      (Num.sub (PyInt 10)
         (Num.mul (Num.abs (Num.sub avg_movement (PyInt 125))) (Float 0.05)))
      (PyInt 0).

Definition total_score (duration avg_movement stability points : num) : num :=
  let base_score := PyInt 50 in
  Num.add (Num.add (Num.add (Num.add base_score (duration_score duration))
                      (stability_score stability))
             (quality_score points))
    (movement_score avg_movement).

Definition calculate_attention_score
    (duration avg_movement stability coverage points : num) : num :=
  Num.max (PyInt 1)
    (Num.min (PyInt 100) (total_score duration avg_movement stability points)).

(** ** [get_score_description] *)

Definition get_score_description (score : num) : string :=
  if Num.geb score (PyInt 85) then "Excellent attention patterns"
  else if Num.geb score (PyInt 70) then "Good attention stability"
  else if Num.geb score (PyInt 55) then "Moderate attention focus"
  else if Num.geb score (PyInt 40) then "Needs attention improvement"
  else "Poor attention patterns".

(** ** [analyze_gaze_data] *)

(** The quantities derived from the frame before scoring (lines 16-41). *)
Record statistics : Type := {
  total_points : num;
  duration : num;
  avg_distance : num;
  total_distance : num;
  coverage_area : num;
  stability : num
}.

(** One turn of the loop over [range(1, len(df))]. *)
Definition step_distance (df : DataFrame) (i : nat) : Exc float :=
  xi <- Pd.iloc df i "x" ;;
  xp <- Pd.iloc df (i - 1) "x" ;;
  dx <- val_sub xi xp ;;
  yi <- Pd.iloc df i "y" ;;
  yp <- Pd.iloc df (i - 1) "y" ;;
  dy <- val_sub yi yp ;;
  ret (Np.sqrt (Num.add (Num.square dx) (Num.square dy))).

Fixpoint distances_loop (df : DataFrame) (range : list nat)
    (distances : list float) : Exc (list float) :=
  match range with
  | [] => ret distances
  | i :: rest =>
      distance <- step_distance df i ;;
      distances_loop df rest (distances ++ [distance])
  end.

(** [max() - min()] of the column [name]. *)
Definition col_range (df : DataFrame) (name : string) : Exc num :=
  hi <- Pd.getitem df name ;;
  lo <- Pd.getitem df name ;;
  val_sub (Pd.max hi) (Pd.min lo).

Definition compute_stability (df : DataFrame) (distances : list float)
    : Exc num :=
  if Nat.ltb 1 (List.length distances) then
    t <- Pd.getitem df "elapsedTime(seconds)" ;;
    time_diffs <- np_diff t ;;
    speeds <- Np.divide distances time_diffs ;;
    ret (Num.sub (PyInt 100)
           (Num.min (Num.mul (Float (Np.std speeds)) (PyInt 10)) (PyInt 100)))
  else
    ret (PyInt 50).

Definition extract_statistics (df : DataFrame) : Exc statistics :=
  let total_points := PyInt (Z.of_nat (Pd.len df)) in
  duration <- col_range df "elapsedTime(seconds)" ;;
  distances <- distances_loop df (seq 1 (Pd.len df - 1)) [] ;;
  let nonempty := negb (Nat.eqb (List.length distances) 0) in
  let avg_distance :=
    if nonempty then Float (Np.mean distances) else PyInt 0 in
  let total_distance :=
    if nonempty then Float (Np.sum distances) else PyInt 0 in
  x_range <- col_range df "x" ;;
  y_range <- col_range df "y" ;;
  let coverage_area := Num.mul x_range y_range in
  stability <- compute_stability df distances ;;
  ret {| total_points := total_points;
         duration := duration;
         avg_distance := avg_distance;
         total_distance := total_distance;
         coverage_area := coverage_area;
         stability := stability |}.

(** Python objects that the result dictionaries are made of, and the JSON
    documents that [json.dumps] renders. *)
Inductive pyobj : Type :=
| ONum (n : num)
| OStr (s : string)
| ODict (items : list (string * pyobj)).

Inductive json : Type :=
| JInt (z : Z)
| JFloat (f : float)
| JString (s : string)
| JObject (members : list (string * json)).

(** [json.dumps]: a [numpy.int64] is neither an [int] nor a [float], and
    the encoder raises [TypeError] on it. *)
Fixpoint json_dumps (o : pyobj) : Exc json :=
  match o with
  | ONum (PyInt z) => ret (JInt z)
  | ONum (Float f) => ret (JFloat f)
  | ONum (NpInt _) =>
      raise (TypeError "Object of type int64 is not JSON serializable")
  | OStr s => ret (JString s)
  | ODict items =>
      members <-
        (fix dump_items (l : list (string * pyobj)) :=
           match l with
           | [] => ret []
           | (k, v) :: rest =>
               v' <- json_dumps v ;;
               rest' <- dump_items rest ;;
               ret ((k, v') :: rest')
           end) items ;;
      ret (JObject members)
  end.

(** The dictionary built on the success path (lines 49-60). *)
Definition success_result (st : statistics) (attention_score : num)
    : Exc pyobj :=
  score <- py_int attention_score ;;
  ret (ODict
    [ ("score", ONum (PyInt score));
      ("analysis", ODict
        [ ("total_points", ONum (total_points st));
          ("duration_seconds", ONum (py_round2 (duration st)));
          ("average_movement", ONum (py_round2 (avg_distance st)));
          ("total_movement", ONum (py_round2 (total_distance st)));
          ("stability_score", ONum (py_round2 (stability st)));
          ("coverage_area", ONum (py_round2 (coverage_area st))) ]);
      ("message",
        OStr ("Analysis completed: "
              ++ get_score_description attention_score)) ]).

(** The document returned from the [except] branch (lines 64-70). *)
Definition error_result (e : exn) : json :=
  JObject
    [ ("score", JInt 0);
      ("error", JString (str_exn e));
      ("message", JString "Analysis failed") ].

Section Pipeline.

(** [pd.read_csv(io.StringIO(csv_data))]: the parser is pandas code; it
    either raises or returns a frame. *)
Variable read_csv : string -> Exc DataFrame.

(** The body of the [try] block. *)
Definition analyze_body (csv_data : string) : Exc json :=
  df <- read_csv csv_data ;;
  st <- extract_statistics df ;;
  let attention_score :=
    calculate_attention_score (duration st) (avg_distance st) (stability st)
      (coverage_area st) (total_points st) in
  result <- success_result st attention_score ;;
  json_dumps result.

Definition analyze_gaze_data (csv_data : string) : json :=
  match analyze_body csv_data with
  | inr text => text
  | inl e => error_result e
  end.

End Pipeline.

(** ** Reading the returned document *)

Fixpoint assoc (k : string) (ms : list (string * json)) : option json :=
  match ms with
  | [] => None
  | (k', v) :: rest => if String.eqb k' k then Some v else assoc k rest
  end.

Definition member (k : string) (j : json) : option json :=
  match j with
  | JObject ms => assoc k ms
  | _ => None
  end.

(** The [score] field, when it is an integer. *)
Definition score_of (j : json) : option Z :=
  match member "score" j with
  | Some (JInt z) => Some z
  | _ => None
  end.

Definition message_of (j : json) : option string :=
  match member "message" j with
  | Some (JString s) => Some s
  | _ => None
  end.

Definition error_of (j : json) : option string :=
  match member "error" j with
  | Some (JString s) => Some s
  | _ => None
  end.

(** The Success variant carries an [analysis] object and no [error]; the
    Failure variant carries an [error] string and no [analysis]. *)
Definition is_success (j : json) : bool :=
  match member "analysis" j, member "error" j with
  | Some (JObject _), None => true
  | _, _ => false
  end.

Definition is_failure (j : json) : bool :=
  match member "analysis" j, error_of j with
  | None, Some _ => true
  | _, _ => false
  end.

Definition analysis_field (k : string) (j : json) : option json :=
  match member "analysis" j with
  | Some a => member k a
  | None => None
  end.


Definition is_object (j : json) : bool :=
  match j with
  | JObject _ => true
  | _ => false
  end.


(** The label table of the specification, on integer scores. *)
Definition label_table : list (Z * Z * string) :=
  [ (85, 100, "Excellent attention patterns");
    (70, 84, "Good attention stability");
    (55, 69, "Moderate attention focus");
    (40, 54, "Needs attention improvement");
    (1, 39, "Poor attention patterns") ].

Definition in_row (z : Z) (row : Z * Z * string) : bool :=
  let '(lo, hi, _) := row in Z.leb lo z && Z.leb z hi.

Definition row_label (row : Z * Z * string) : string :=
  let '(_, _, l) := row in l.

(** Lookup in a Python dictionary literal. *)
Fixpoint passoc (k : string) (items : list (string * pyobj)) : option pyobj :=
  match items with
  | [] => None
  | (k', v) :: rest => if String.eqb k' k then Some v else passoc k rest
  end.



(** ** Classes of binary64 values *)

(** An infinity of sign [s], or NaN. *)
Definition inf_or_nan (s : bool) (x : spec_float) : Prop :=
  x = S754_infinity s \/ x = S754_nan.

(** The sign bit is clear, or the value is NaN. *)
Definition sign_clear (x : spec_float) : Prop :=
  match x with
  | S754_zero s | S754_infinity s | S754_finite s _ _ => s = false
  | S754_nan => True
  end.

(** Not negative: NaN, a zero of either sign, or a positive value. *)
Definition nonneg (x : spec_float) : Prop :=
  match x with
  | S754_infinity s | S754_finite s _ _ => s = false
  | S754_zero _ | S754_nan => True
  end.

(** Zero or positive, and at most one hundred ([100 = 7036874417766400 *
    2^-46]). *)
Definition le_hundred (r : spec_float) : Prop :=
  r = S754_zero false \/
  exists m e, r = S754_finite false m e /\
    (e < -46 \/ (e = -46 /\ Z.pos m <= 7036874417766400)).

Definition at_most_hundred (r : spec_float) : Prop :=
  r = S754_nan \/ r = S754_finite false 7036874417766400 (-46) \/
  le_hundred r.

Definition finf (s : bool) (f : float) : Prop := inf_or_nan s (Prim2SF f).
Definition fnan (f : float) : Prop := Prim2SF f = S754_nan.

(** What [json.dumps] accepts among the numbers. *)
Definition json_ready (n : num) : bool :=
  match n with
  | NpInt _ => false
  | _ => true
  end.

Definition statistics_ready (st : statistics) : bool :=
  json_ready (total_points st) && json_ready (duration st) &&
  json_ready (avg_distance st) && json_ready (total_distance st) &&
  json_ready (stability st) && json_ready (coverage_area st).

(** ** Sample inputs *)

Definition nl : string := String (ascii_of_nat 10) "".

(** The example of [create_interface] (line 133), and the frame that
    [pd.read_csv] makes of it: three [float64] columns of five rows. *)
Definition example_csv : string :=
  "elapsedTime(seconds),x,y" ++ nl ++ "0.000,100.50,200.30" ++ nl
  ++ "0.016,101.20,201.15" ++ nl ++ "0.032,102.10,202.05" ++ nl
  ++ "0.048,103.05,203.20" ++ nl ++ "0.064,104.15,204.35".

Definition example_frame : DataFrame :=
  [ ("elapsedTime(seconds)", SFloat [0.000; 0.016; 0.032; 0.048; 0.064]%float);
    ("x", SFloat [100.50; 101.20; 102.10; 103.05; 104.15]%float);
    ("y", SFloat [200.30; 201.15; 202.05; 203.20; 204.35]%float) ].

(** One row of decimal literals, and one row of integer literals. *)
Definition float_row_csv : string :=
  "elapsedTime(seconds),x,y" ++ nl ++ "0.5,1.5,2.0".

Definition float_row_frame : DataFrame :=
  [ ("elapsedTime(seconds)", SFloat [0.5%float]);
    ("x", SFloat [1.5%float]);
    ("y", SFloat [2.0%float]) ].

Definition int_row_csv : string :=
  "elapsedTime(seconds),x,y" ++ nl ++ "0,1,2".

Definition int_row_frame : DataFrame :=
  [ ("elapsedTime(seconds)", SInt [0]); ("x", SInt [1]); ("y", SInt [2]) ].

(** Three rows, the last two at the same instant. *)
Definition stalled_csv : string :=
  "elapsedTime(seconds),x,y" ++ nl ++ "0.0,1.0,1.0" ++ nl
  ++ "0.5,2.0,1.0" ++ nl ++ "0.5,4.0,1.0".

Definition stalled_frame : DataFrame :=
  [ ("elapsedTime(seconds)", SFloat [0.0; 0.5; 0.5]%float);
    ("x", SFloat [1.0; 2.0; 4.0]%float);
    ("y", SFloat [1.0; 1.0; 1.0]%float) ].

(** A table without its [y] column. *)
Definition no_y_csv : string :=
  "elapsedTime(seconds),x" ++ nl ++ "0.0,1.0" ++ nl ++ "0.5,2.0".

Definition no_y_frame : DataFrame :=
  [ ("elapsedTime(seconds)", SFloat [0.0; 0.5]%float);
    ("x", SFloat [1.0; 2.0]%float) ].

(** A reader that knows the sample texts above and, like pandas on an
    empty text, raises on anything else. *)
Definition sample_reader (csv_data : string) : Exc DataFrame :=
  if String.eqb csv_data example_csv then ret example_frame
  else if String.eqb csv_data float_row_csv then ret float_row_frame
  else if String.eqb csv_data int_row_csv then ret int_row_frame
  else if String.eqb csv_data stalled_csv then ret stalled_frame
  else if String.eqb csv_data no_y_csv then ret no_y_frame
  else raise (ParserError "No columns to parse from file").

(** What [max(1, min(100, total))] can return: one of the two integer
    bounds, an integer strictly between them, or a float strictly between
    them.  A NaN total compares false with 100, so [min] keeps 100. *)
Inductive clamped : num -> Prop :=
| clamped_int z : 1 <= z <= 100 -> clamped (PyInt z)
| clamped_npint z : 1 < z < 100 -> clamped (NpInt z)
| clamped_float f :
    (f <? 100)%float = true -> (1 <? f)%float = true -> clamped (Float f).

(** The statistics of the example table. *)
Definition example_statistics : statistics :=
  Eval vm_compute in
    match extract_statistics example_frame with
    | inr st => st
    | inl _ =>
        {| total_points := PyInt 0; duration := PyInt 0;
           avg_distance := PyInt 0; total_distance := PyInt 0;
           coverage_area := PyInt 0; stability := PyInt 0 |}
    end.

(** ** Further predicates and sample tables *)

(** A NaN among the arguments of the score calculator. *)
Definition is_nan_num (n : num) : bool :=
  match n with
  | Float f => is_nan f
  | _ => false
  end.

(** The description of the [TypeError] that [json.dumps] raises on a
    [numpy.int64]. *)
Definition int64_message : string :=
  "Object of type int64 is not JSON serializable".

(** A Python [int] that meets a float is converted to one, and from
    [2^1024] on the conversion raises [OverflowError], which [Num.arith]
    does not model: it is read on integers below that. *)
Definition float_range (n : num) : bool :=
  match n with
  | PyInt z => Z.abs z <? 2 ^ 1023
  | _ => true
  end.

(** The cells of an [int64] column lie in the range of the type.  pandas
    gives a column that holds a larger integer another dtype ([uint64] or
    [object]), which [series] does not have. *)
Definition int64_cell (z : Z) : bool :=
  (- 2 ^ 63 <=? z) && (z <? 2 ^ 63).

Definition int64_frame (df : DataFrame) : bool :=
  forallb
    (fun c : string * series =>
       match snd c with
       | SInt l => forallb int64_cell l
       | _ => true
       end) df.

(** A column of dtype [int64] or [float64]. *)
Definition numeric (s : series) : bool :=
  match s with
  | SObj _ => false
  | _ => true
  end.

Definition fnonneg (f : float) : Prop := nonneg (Prim2SF f).

Definition fle (a b : float) : Prop :=
  SFleb (Prim2SF a) (Prim2SF b) = true.

(** One turn of the distance loop, read on the two coordinate columns of
    a [float64] table. *)
Definition float_step (xs ys : list float) (i : nat) : float :=
  let dx :=
    Num.sub (Float (nth i xs 0%float)) (Float (nth (i - 1) xs 0%float)) in
  let dy :=
    Num.sub (Float (nth i ys 0%float)) (Float (nth (i - 1) ys 0%float)) in
  Np.sqrt (Num.add (Num.square dx) (Num.square dy)).

(** A header without rows: pandas gives every column the dtype [object]. *)
Definition header_only_frame : DataFrame :=
  [ ("elapsedTime(seconds)", SObj []); ("x", SObj []); ("y", SObj []) ].

(** The example table with one more column, of text. *)
Definition annotated_frame : DataFrame :=
  (example_frame ++ [ ("note", SObj ["a"; "b"; "c"; "d"; "e"]) ])%list.

Definition two_row_frame : DataFrame :=
  [ ("elapsedTime(seconds)", SFloat [0.0; 0.5]%float);
    ("x", SFloat [1.0; 2.0]%float);
    ("y", SFloat [1.0; 3.0]%float) ].

Definition two_row_statistics : statistics :=
  Eval vm_compute in
    match extract_statistics two_row_frame with
    | inr st => st
    | inl _ => example_statistics
    end.

(** Tables that lack the elapsed-time column, resp. the [x] column, and a
    table whose elapsed-time cells are not numbers. *)
Definition no_time_frame : DataFrame :=
  [ ("x", SFloat [1.0; 2.0]%float); ("y", SFloat [1.0; 3.0]%float) ].

Definition no_x_frame : DataFrame :=
  [ ("elapsedTime(seconds)", SFloat [0.0; 0.5]%float);
    ("y", SFloat [1.0; 3.0]%float) ].

Definition text_time_frame : DataFrame :=
  [ ("elapsedTime(seconds)", SObj ["start"; "end"]);
    ("x", SFloat [1.0; 2.0]%float);
    ("y", SFloat [1.0; 3.0]%float) ].

(** ** Facts about binary64 values *)

Module SF.

Definition one : spec_float := S754_finite false 4503599627370496 (-52).
Definition hundred : spec_float := S754_finite false 7036874417766400 (-46).
Definition m100 : positive := 7036874417766400.

Lemma digits2_pos_bounds (m : positive) :
  2 ^ (Z.pos (digits2_pos m) - 1) <= Z.pos m < 2 ^ Z.pos (digits2_pos m).
Proof.
  induction m as [m IH | m IH |]; cbn [digits2_pos].
  - rewrite Pos2Z.inj_succ.
    replace (Z.succ (Z.pos (digits2_pos m)) - 1)
      with (Z.succ (Z.pos (digits2_pos m) - 1)) by lia.
    rewrite !Z.pow_succ_r by lia. lia.
  - rewrite Pos2Z.inj_succ.
    replace (Z.succ (Z.pos (digits2_pos m)) - 1)
      with (Z.succ (Z.pos (digits2_pos m) - 1)) by lia.
    rewrite !Z.pow_succ_r by lia. lia.
  - cbn. lia.
Qed.

(** A valid finite value has at most 53 significant bits, and exactly 53
    above the subnormal range. *)
Lemma valid_finite s m e :
  valid_binary (S754_finite s m e) = true ->
  -1074 <= e <= 971 /\ Z.pos m < 2 ^ 53 /\ (-1074 < e -> 2 ^ 52 <= Z.pos m).
Proof.
  unfold SpecFloat.valid_binary, bounded, canonical_mantissa, fexp,
    SpecFloat.emin.
  change prec with 53. change emax with 1024.
  intros H. apply andb_true_iff in H as [H1 H2].
  apply Z.eqb_eq in H1. apply Z.leb_le in H2.
  pose proof (digits2_pos_bounds m) as [Hlo Hhi].
  set (d := Z.pos (digits2_pos m)) in *.
  assert (Hd : d <= 53) by lia.
  repeat split; try lia.
  - eapply Z.lt_le_trans; [exact Hhi|]. apply Z.pow_le_mono_r; lia.
  - intros He. assert (d = 53) by lia. subst d.
    replace 52 with (Z.pos (digits2_pos m) - 1) by lia. exact Hlo.
Qed.

(** Comparison of two positive finite values reads their exponents first,
    then their mantissas. *)
Lemma SFcompare_pos m1 e1 m2 e2 :
  SFcompare (S754_finite false m1 e1) (S754_finite false m2 e2) =
  Some (match e1 ?= e2 with
        | Lt => Lt
        | Gt => Gt
        | Eq => (m1 ?= m2)%positive
        end).
Proof. reflexivity. Qed.

Lemma SFltb_pos m1 e1 m2 e2 :
  SFltb (S754_finite false m1 e1) (S754_finite false m2 e2) = true <->
  e1 < e2 \/ (e1 = e2 /\ Z.pos m1 < Z.pos m2).
Proof.
  unfold SFltb. rewrite SFcompare_pos.
  destruct (Z.compare_spec e1 e2); [destruct (Pos.compare_spec m1 m2)| |];
    split; intros; try discriminate; try reflexivity; try lia.
Qed.

Lemma SFleb_pos m1 e1 m2 e2 :
  SFleb (S754_finite false m1 e1) (S754_finite false m2 e2) = true <->
  e1 < e2 \/ (e1 = e2 /\ Z.pos m1 <= Z.pos m2).
Proof.
  unfold SFleb. rewrite SFcompare_pos.
  destruct (Z.compare_spec e1 e2); [destruct (Pos.compare_spec m1 m2)| |];
    split; intros; try discriminate; try reflexivity; try lia.
Qed.

(** A valid value strictly between 1 and 100 is positive, finite, normal,
    with an exponent between -52 and -46. *)
Lemma between_one_hundred x :
  valid_binary x = true ->
  SFltb x hundred = true -> SFltb one x = true ->
  exists m e, x = S754_finite false m e /\ -52 <= e <= -46 /\
    2 ^ 52 <= Z.pos m < 2 ^ 53 /\
    (e = -52 -> 2 ^ 52 < Z.pos m) /\
    (e = -46 -> Z.pos m < Z.pos m100).
Proof.
  intros Hv H100 H1.
  destruct x as [[] | [] | | [] m e]; try (simpl in *; discriminate).
  apply valid_finite in Hv as (He & Hm & Hn).
  apply SFltb_pos in H100. apply SFltb_pos in H1.
  exists m, e. split; [reflexivity|].
  assert (-52 <= e <= -46) by lia.
  assert (2 ^ 52 <= Z.pos m) by (apply Hn; lia).
  unfold m100.
  change (2 ^ 52) with 4503599627370496 in *.
  change (2 ^ 53) with 9007199254740992 in *.
  repeat split; try lia.
Qed.

End SF.

(** ** Constants of the score calculator as binary64 values *)

Module Const.

Lemma float_of_1 : Num.float_of_Z 1 = 1%float.
Proof. vm_compute. reflexivity. Qed.
Lemma float_of_100 : Num.float_of_Z 100 = 100%float.
Proof. vm_compute. reflexivity. Qed.
Lemma float_of_85 : Num.float_of_Z 85 = 85%float.
Proof. vm_compute. reflexivity. Qed.
Lemma float_of_70 : Num.float_of_Z 70 = 70%float.
Proof. vm_compute. reflexivity. Qed.
Lemma float_of_55 : Num.float_of_Z 55 = 55%float.
Proof. vm_compute. reflexivity. Qed.
Lemma float_of_40 : Num.float_of_Z 40 = 40%float.
Proof. vm_compute. reflexivity. Qed.

Lemma Prim2SF_1 : Prim2SF 1 = SF.one.
Proof. vm_compute. reflexivity. Qed.
Lemma Prim2SF_100 : Prim2SF 100 = SF.hundred.
Proof. vm_compute. reflexivity. Qed.
Lemma Prim2SF_85 : Prim2SF 85 = S754_finite false 5981343255101440 (-46).
Proof. vm_compute. reflexivity. Qed.
Lemma Prim2SF_70 : Prim2SF 70 = S754_finite false 4925812092436480 (-46).
Proof. vm_compute. reflexivity. Qed.
Lemma Prim2SF_55 : Prim2SF 55 = S754_finite false 7740561859543040 (-47).
Proof. vm_compute. reflexivity. Qed.
Lemma Prim2SF_40 : Prim2SF 40 = S754_finite false 5629499534213120 (-47).
Proof. vm_compute. reflexivity. Qed.

End Const.

(** ** The clamp of [calculate_attention_score] *)

Lemma clamp_clamped t :
  clamped (Num.max (PyInt 1) (Num.min (PyInt 100) t)).
Proof.
  unfold Num.max, Num.min, Num.gtb.
  destruct t as [z | z | f].
  - cbn [Num.ltb]. destruct (Z.ltb_spec z 100).
    + cbn [Num.ltb]. destruct (Z.ltb_spec 1 z); constructor; lia.
    + cbn. constructor. lia.
  - cbn [Num.ltb]. destruct (Z.ltb_spec z 100).
    + cbn [Num.ltb]. destruct (Z.ltb_spec 1 z); constructor; lia.
    + cbn. constructor. lia.
  - cbn [Num.ltb Num.to_float]. rewrite Const.float_of_100.
    destruct (f <? 100)%float eqn:E.
    + cbn [Num.ltb Num.to_float]. rewrite Const.float_of_1.
      destruct (1 <? f)%float eqn:E1; constructor; auto; lia.
    + cbn. constructor; lia.
Qed.

Lemma calculate_attention_score_clamped d a s c p :
  clamped (calculate_attention_score d a s c p).
Proof. apply clamp_clamped. Qed.

Lemma float_between f :
  (f <? 100)%float = true -> (1 <? f)%float = true ->
  exists m e, Prim2SF f = S754_finite false m e /\ -52 <= e <= -46 /\
    2 ^ 52 <= Z.pos m < 2 ^ 53 /\
    (e = -52 -> 2 ^ 52 < Z.pos m) /\
    (e = -46 -> Z.pos m < Z.pos SF.m100).
Proof.
  rewrite !ltb_spec, Const.Prim2SF_100, Const.Prim2SF_1.
  apply SF.between_one_hundred, Prim2SF_valid.
Qed.

Ltac exponent_cases e H :=
  let E := fresh "E" in
  assert (E : e = -52 \/ e = -51 \/ e = -50 \/ e = -49 \/ e = -48 \/
              e = -47 \/ e = -46) by lia;
  clear H; repeat (destruct E as [E | E]); subst e.

(** On a float strictly between 1 and 100, [int] returns an integer in
    [1, 99], and the label thresholds, all integers, are passed by the
    float exactly when they are passed by its integer part. *)
Lemma py_int_between f :
  (f <? 100)%float = true -> (1 <? f)%float = true ->
  exists z, py_int (Float f) = inr z /\ 1 <= z <= 99 /\
    get_score_description (Float f) = get_score_description (PyInt z).
Proof.
  intros H100 H1.
  destruct (float_between f H100 H1) as (m & e & Hf & He & Hm & Hlo & Hhi).
  unfold get_score_description, Num.geb, Num.leb, Num.to_float.
  rewrite Const.float_of_85, Const.float_of_70, Const.float_of_55,
    Const.float_of_40.
  rewrite !leb_spec, Const.Prim2SF_85, Const.Prim2SF_70, Const.Prim2SF_55,
    Const.Prim2SF_40.
  unfold py_int. rewrite Hf. cbn [trunc_SF cond_Zopp].
  unfold SF.m100 in Hhi.
  change (2 ^ 52) with 4503599627370496 in *.
  change (2 ^ 53) with 9007199254740992 in *.
  exponent_cases e He.
  all: eexists; split; [reflexivity|].
  all: match goal with |- context [Z.pos _ / ?d] =>
         let v := eval vm_compute in d in change d with v end.
  all: match goal with |- context [Z.pos ?q / ?d] =>
         pose proof (Z.div_mod (Z.pos q) d ltac:(lia));
         pose proof (Z.mod_pos_bound (Z.pos q) d ltac:(lia));
         set (z := Z.pos q / d) in * end.
  all: split; [lia|].
  all: repeat match goal with
       | |- context [SFleb (S754_finite false ?a ?b)
                           (S754_finite false ?q ?c)] =>
           let b' := fresh "b" in
           destruct (SFleb (S754_finite false a b) (S754_finite false q c))
             eqn:b';
           [ apply SF.SFleb_pos in b'
           | apply not_true_iff_false in b'; rewrite SF.SFleb_pos in b' ]
       end.
  all: repeat match goal with
       | |- context [Z.leb ?a ?zz] => destruct (Z.leb_spec a zz)
       end.
  all: try reflexivity.
  all: exfalso; lia.
Qed.

(** [int] never raises on a clamped value; its result is in [1, 100] and
    carries the same label as the value it was taken from. *)
Lemma clamped_int_label a :
  clamped a ->
  exists z, py_int a = inr z /\ 1 <= z <= 100 /\
    get_score_description a = get_score_description (PyInt z).
Proof.
  intros [z Hz | z Hz | f H100 H1].
  - exists z. repeat split; lia.
  - exists z. repeat split; lia.
  - destruct (py_int_between f H100 H1) as (z & Hi & Hz & Hl).
    exists z. repeat split; try assumption; lia.
Qed.

(** ** [json.dumps] keeps the keys of a dictionary *)

Lemma json_dumps_dict items j :
  json_dumps (ODict items) = inr j ->
  exists ms, j = JObject ms /\
    forall k, match passoc k items with
              | None => assoc k ms = None
              | Some v =>
                  exists v', json_dumps v = inr v' /\ assoc k ms = Some v'
              end.
Proof.
  revert j. induction items as [| [k0 v0] rest IH]; intros j H.
  - cbn in H. injection H as <-. exists []. split; [reflexivity|].
    intros k. reflexivity.
  - cbn [json_dumps] in H.
    destruct (json_dumps v0) as [e | v0'] eqn:Ev; [discriminate|].
    cbn [bind] in H.
    match type of H with
    | bind (bind ?m _) _ = _ => destruct m as [e | ms'] eqn:Em
    end; [discriminate|].
    cbn in H. injection H as <-.
    destruct (IH (JObject ms')) as (ms & Hms & Hk).
    { cbn [json_dumps]. rewrite Em. reflexivity. }
    injection Hms as <-.
    exists ((k0, v0') :: ms'). split; [reflexivity|].
    intros k. cbn [passoc assoc]. destruct (String.eqb k0 k).
    + exists v0'. split; [assumption | reflexivity].
    + apply Hk.
Qed.

Lemma success_shape read_csv csv j :
  analyze_body read_csv csv = inr j ->
  exists df st z,
    read_csv csv = inr df /\ extract_statistics df = inr st /\
    1 <= z <= 100 /\
    is_success j = true /\ is_failure j = false /\
    score_of j = Some z /\
    message_of j =
      Some ("Analysis completed: " ++ get_score_description (PyInt z))%string.
Proof.
  unfold analyze_body. intros H.
  destruct (read_csv csv) as [e | df] eqn:Ecsv; [discriminate|].
  cbn [bind] in H.
  destruct (extract_statistics df) as [e | st] eqn:Est; [discriminate|].
  cbn [bind] in H.
  set (a := calculate_attention_score _ _ _ _ _) in H.
  destruct (clamped_int_label a) as (z & Hi & Hz & Hl).
  { apply calculate_attention_score_clamped. }
  unfold success_result in H. rewrite Hi in H. cbn [bind ret] in H.
  apply json_dumps_dict in H as (ms & -> & Hk).
  exists df, st, z. repeat split; try assumption; try lia.
  - unfold is_success; cbn [member].
    generalize (Hk "analysis"%string);
      cbn [passoc String.eqb Ascii.eqb Bool.eqb].
    intros (v' & Hv & ->).
    apply json_dumps_dict in Hv as (ms' & -> & _).
    generalize (Hk "error"%string); cbn [passoc String.eqb Ascii.eqb Bool.eqb].
    intros ->. reflexivity.
  - unfold is_failure, error_of; cbn [member].
    generalize (Hk "analysis"%string);
      cbn [passoc String.eqb Ascii.eqb Bool.eqb].
    intros (v' & Hv & ->). reflexivity.
  - unfold score_of; cbn [member].
    generalize (Hk "score"%string); cbn [passoc String.eqb Ascii.eqb Bool.eqb].
    intros (v' & Hv & ->). cbn in Hv. injection Hv as <-. reflexivity.
  - unfold message_of; cbn [member].
    generalize (Hk "message"%string);
      cbn [passoc String.eqb Ascii.eqb Bool.eqb].
    intros (v' & Hv & ->). cbn in Hv. injection Hv as <-. rewrite Hl.
    reflexivity.
Qed.

(** ** Every exception of the pipeline has a description *)


















(** ** Signs, infinities and NaN through the arithmetic *)

Lemma SFadd_inf_l s x y : inf_or_nan s x -> inf_or_nan s (SF64add x y).
Proof.
  intros [-> | ->]; [|right; reflexivity].
  destruct y as [sy | sy | | sy m e]; cbn; try (left; reflexivity);
    try (right; reflexivity).
  destruct s, sy; cbn; auto; try (left; reflexivity); right; reflexivity.
Qed.

Lemma SFadd_inf_r s x y : inf_or_nan s y -> inf_or_nan s (SF64add x y).
Proof.
  intros [-> | ->].
  - destruct x as [sx | sx | | sx m e]; cbn; try (left; reflexivity);
      try (right; reflexivity).
    destruct sx, s; cbn; auto; try (left; reflexivity); right; reflexivity.
  - right. destruct x; reflexivity.
Qed.

Lemma SFdiv_inf_sign_clear s x y :
  inf_or_nan s x -> sign_clear y -> inf_or_nan s (SF64div x y).
Proof.
  intros [-> | ->] Hy; [|right; reflexivity].
  destruct y as [sy | sy | | sy m e]; cbn in Hy |- *; subst;
    try (right; reflexivity); left; rewrite xorb_false_r; reflexivity.
Qed.

Lemma SFdiv_zero x s : exists s', inf_or_nan s' (SF64div x (S754_zero s)).
Proof.
  destruct x as [sx | sx | | sx m e]; cbn.
  - exists false; right; reflexivity.
  - eexists; left; reflexivity.
  - exists false; right; reflexivity.
  - eexists; left; reflexivity.
Qed.

Lemma SFsub_inf_inf s x y :
  inf_or_nan s x -> inf_or_nan s y -> SF64sub x y = S754_nan.
Proof.
  intros [-> | ->] [-> | ->]; try reflexivity. destruct s; reflexivity.
Qed.

Lemma SFadd_nan_l y : SF64add S754_nan y = S754_nan.
Proof. reflexivity. Qed.
Lemma SFadd_nan_r x : SF64add x S754_nan = S754_nan.
Proof. destruct x; reflexivity. Qed.

Lemma binary_round_aux_sign s m e l :
  let r := binary_round_aux prec emax s m e l in
  r = S754_nan \/ r = S754_zero s \/ r = S754_infinity s \/
  exists m' e', r = S754_finite s m' e'.
Proof.
  unfold binary_round_aux.
  destruct (shr_fexp prec emax m e l) as [mrs' e'].
  destruct (shr_fexp prec emax _ e' loc_Exact) as [mrs'' e''].
  destruct (shr_m mrs'') as [| p | p]; auto.
  destruct (Z.leb e'' (emax - prec)); eauto 6.
Qed.

Lemma binary_round_sign s m e :
  let r := binary_round prec emax s m e in
  r = S754_nan \/ r = S754_zero s \/ r = S754_infinity s \/
  exists m' e', r = S754_finite s m' e'.
Proof.
  unfold binary_round.
  destruct (shl_align m e _) as [mz ez]. apply binary_round_aux_sign.
Qed.

Lemma sign_clear_binary_round m e :
  sign_clear (binary_round prec emax false m e).
Proof.
  destruct (binary_round_sign false m e) as [-> | [-> | [-> | (m' & e' & ->)]]];
    cbn; auto.
Qed.

Lemma sign_clear_binary_normalize z e :
  0 <= z -> sign_clear (binary_normalize prec emax z e false).
Proof.
  destruct z as [| p | p]; intros Hz; cbn [binary_normalize].
  - reflexivity.
  - apply sign_clear_binary_round.
  - lia.
Qed.

Lemma Prim2SF_zero : Prim2SF zero = S754_zero false.
Proof. vm_compute. reflexivity. Qed.
Lemma Prim2SF_infinity : Prim2SF infinity = S754_infinity false.
Proof. vm_compute. reflexivity. Qed.
Lemma Prim2SF_nan : Prim2SF nan = S754_nan.
Proof. vm_compute. reflexivity. Qed.

Lemma sign_clear_float_of_Z z :
  0 <= z -> sign_clear (Prim2SF (Num.float_of_Z z)).
Proof.
  intros Hz. unfold Num.float_of_Z.
  pose proof (sign_clear_binary_normalize z 0 Hz) as Hu.
  destruct (binary_normalize prec emax z 0 false) as [s | s | | s m e];
    cbn in Hu; subst; cbn [SF2Prim].
  - rewrite Prim2SF_zero. reflexivity.
  - rewrite Prim2SF_infinity. reflexivity.
  - rewrite Prim2SF_nan. exact I.
  - rewrite Z_ldexp_spec, of_uint63_spec.
    pose proof (Uint63.to_Z_bounded (Uint63.of_Z (Z.pos m))) as [Hb _].
    pose proof (sign_clear_binary_normalize _ 0 Hb) as Hu.
    destruct (binary_normalize prec emax _ 0 false) as [s | s | | s m' e'];
      cbn in Hu; subst; cbn [SFldexp];
      [reflexivity | reflexivity | exact I | apply sign_clear_binary_round].
Qed.

(** ** Rounding to nearest: the difference [100 - y] *)

Lemma digits2_pos_unique (p : positive) (d : Z) :
  2 ^ (d - 1) <= Z.pos p < 2 ^ d -> Z.pos (digits2_pos p) = d.
Proof.
  intros [Hlo Hhi].
  pose proof (SF.digits2_pos_bounds p) as [Hlo' Hhi'].
  set (d' := Z.pos (digits2_pos p)) in *.
  assert (Hd' : 0 < d') by (unfold d'; lia).
  assert (Hd : 0 < d).
  { destruct (Z.lt_trichotomy d 0) as [H | [H | H]]; try assumption.
    - rewrite (Z.pow_neg_r 2 d H) in Hhi. lia.
    - subst d. cbn in Hhi. lia. }
  destruct (Z.lt_trichotomy d d') as [H | [H | H]]; [| symmetry; assumption |].
  - assert (2 ^ d <= 2 ^ (d' - 1)) by (apply Z.pow_le_mono_r; lia). lia.
  - assert (2 ^ d' <= 2 ^ (d - 1)) by (apply Z.pow_le_mono_r; lia). lia.
Qed.

Lemma shl_align_spec mx ex ex' :
  ex' <= ex ->
  exists mx', shl_align mx ex ex' = (mx', ex') /\
    Z.pos mx' = Z.pos mx * 2 ^ (ex - ex').
Proof.
  intros H. unfold shl_align.
  destruct (ex' - ex) as [| d | d] eqn:E.
  - assert (ex' = ex) by lia. subst ex'. exists mx.
    rewrite Z.sub_diag, Z.mul_1_r. split; reflexivity.
  - lia.
  - exists (Pos.iter xO mx d). split; [reflexivity|].
    change (Pos.iter xO mx d) with (shift_pos d mx).
    rewrite shift_pos_correct, Z.pow_pos_fold.
    replace (ex - ex') with (Z.pos d) by lia. ring.
Qed.

Lemma shl_align_id mx ex ex' : ex <= ex' -> shl_align mx ex ex' = (mx, ex).
Proof.
  intros H. unfold shl_align. destruct (ex' - ex) eqn:E; try reflexivity. lia.
Qed.

Lemma shr_1_m r : 0 <= shr_m r -> shr_m (shr_1 r) = shr_m r / 2.
Proof.
  destruct r as [m b s]. cbn [shr_m]. intros H.
  destruct m as [| [p | p |] | p]; cbn [shr_1 shr_m]; try lia.
  - reflexivity.
  - Z.to_euclidean_division_equations; lia.
  - Z.to_euclidean_division_equations; lia.
  - reflexivity.
Qed.

Lemma iter_shr_1_m q : forall r,
  0 <= shr_m r ->
  shr_m (iter_pos shr_1 q r) = shr_m r / 2 ^ Z.pos q.
Proof.
  assert (Hnn : forall r, 0 <= shr_m r -> 0 <= shr_m r / 2)
    by (intros; apply Z.div_pos; lia).
  induction q as [q IH | q IH |]; intros r Hr; cbn [iter_pos].
  - assert (H1 : 0 <= shr_m (shr_1 r)) by (rewrite shr_1_m; auto).
    assert (H2 : 0 <= shr_m (iter_pos shr_1 q (shr_1 r))).
    { rewrite IH by assumption. apply Z.div_pos; [assumption|].
      apply Z.pow_pos_nonneg; lia. }
    rewrite IH, IH, shr_1_m by assumption.
    rewrite !Z.div_div by (try apply Z.pow_pos_nonneg; lia).
    f_equal. change (Z.pos q~1) with (2 * Z.pos q + 1).
    replace (2 * Z.pos q + 1) with (1 + Z.pos q + Z.pos q) by lia.
    rewrite (Z.pow_add_r 2 (1 + Z.pos q) (Z.pos q)),
      (Z.pow_add_r 2 1 (Z.pos q)) by lia.
    change (2 ^ 1) with 2. ring.
  - assert (H2 : 0 <= shr_m (iter_pos shr_1 q r)).
    { rewrite IH by assumption. apply Z.div_pos; [assumption|].
      apply Z.pow_pos_nonneg; lia. }
    rewrite IH, IH by assumption.
    rewrite !Z.div_div by (try apply Z.pow_pos_nonneg; lia).
    f_equal. change (Z.pos q~0) with (2 * Z.pos q).
    replace (2 * Z.pos q) with (Z.pos q + Z.pos q) by lia.
    rewrite (Z.pow_add_r 2 (Z.pos q) (Z.pos q)) by lia. ring.
  - apply shr_1_m. assumption.
Qed.

Lemma round_nearest_even_bounds m l :
  m <= round_nearest_even m l <= m + 1.
Proof.
  destruct l as [| []]; cbn; try lia. destruct (Z.even m); lia.
Qed.

Lemma fexp_eq k : fexp prec emax k = Z.max (k - 53) (-1074).
Proof. reflexivity. Qed.

(** A mantissa that is already canonical is left alone. *)
Lemma binary_round_aux_canonical m e :
  fexp prec emax (Z.pos (digits2_pos m) + e) = e -> e <= 971 ->
  binary_round_aux prec emax false (Z.pos m) e loc_Exact
  = S754_finite false m e.
Proof.
  intros Hc He. unfold binary_round_aux, shr_fexp.
  cbn [Zdigits2 shr_record_of_loc]. rewrite Hc, Z.sub_diag.
  cbn [shr shr_m loc_of_shr_record round_nearest_even Zdigits2
       shr_record_of_loc].
  rewrite Hc, Z.sub_diag. cbn [shr shr_m].
  change (emax - prec) with 971.
  destruct (Z.leb_spec e 971); [reflexivity | lia].
Qed.

(** Rounding a mantissa of more than 53 bits: the result is the quotient
    by the excess power of two, possibly plus one, renormalised when the
    increment carries into a 54th bit. *)
Lemma binary_round_aux_shift p e :
  let d := Z.pos (digits2_pos p) in
  53 < d -> -1074 <= e -> d + e - 53 <= 970 ->
  exists m2 : positive,
    Z.pos p / 2 ^ (d - 53) <= Z.pos m2 <= Z.pos p / 2 ^ (d - 53) + 1 /\
    2 ^ 52 <= Z.pos m2 <= 2 ^ 53 /\
    binary_round_aux prec emax false (Z.pos p) e loc_Exact =
      if Z.pos m2 <? 2 ^ 53 then S754_finite false m2 (d + e - 53)
      else S754_finite false 4503599627370496 (d + e - 52).
Proof.
  intros d Hd He Hmax.
  pose proof (SF.digits2_pos_bounds p) as [Hlo Hhi]. fold d in Hlo, Hhi.
  unfold binary_round_aux, shr_fexp.
  cbn [Zdigits2 shr_record_of_loc]. fold d.
  rewrite fexp_eq.
  replace (Z.max (d + e - 53) (-1074) - e) with (d - 53) by lia.
  destruct (d - 53) as [| q | q] eqn:Eq; try lia.
  cbn [shr].
  set (r1 := iter_pos shr_1 q _).
  assert (Hm1 : shr_m r1 = Z.pos p / 2 ^ Z.pos q).
  { unfold r1. rewrite iter_shr_1_m; cbn [shr_m]; [reflexivity | lia]. }
  assert (Hq : 0 < 2 ^ Z.pos q) by (apply Z.pow_pos_nonneg; lia).
  assert (Hb1 : 2 ^ 52 <= shr_m r1 < 2 ^ 53).
  { rewrite Hm1. split.
    - apply Z.div_le_lower_bound; [assumption|].
      replace (d - 1) with (Z.pos q + 52) in Hlo by lia.
      rewrite Z.pow_add_r in Hlo by lia. lia.
    - apply Z.div_lt_upper_bound; [assumption|].
      replace d with (Z.pos q + 53) in Hhi by lia.
      rewrite Z.pow_add_r in Hhi by lia. lia. }
  pose proof (round_nearest_even_bounds (shr_m r1) (loc_of_shr_record r1))
    as Hrne.
  set (m2 := round_nearest_even (shr_m r1) (loc_of_shr_record r1)) in *.
  change (2 ^ 52) with 4503599627370496 in *.
  change (2 ^ 53) with 9007199254740992 in *.
  destruct m2 as [| p2 | p2] eqn:Em2; try lia.
  exists p2. split; [rewrite <- Hm1; lia|]. split; [lia|].
  replace (e + Z.pos q) with (d + e - 53) by lia.
  cbn [Zdigits2]. rewrite fexp_eq.
  destruct (Z.ltb_spec (Z.pos p2) 9007199254740992) as [Hlt | Hge].
  - assert (Hd2 : Z.pos (digits2_pos p2) = 53).
    { apply digits2_pos_unique.
      change (2 ^ (53 - 1)) with 4503599627370496.
      change (2 ^ 53) with 9007199254740992. lia. }
    rewrite Hd2.
    replace (Z.max (53 + (d + e - 53) - 53) (-1074) - (d + e - 53)) with 0
      by lia.
    cbn [shr shr_m]. change (emax - prec) with 971.
    destruct (Z.leb_spec (d + e - 53) 971); [reflexivity | lia].
  - assert (Hp2 : Z.pos p2 = 9007199254740992) by lia.
    injection Hp2 as ->.
    change (Z.pos (digits2_pos 9007199254740992)) with 54.
    replace (Z.max (54 + (d + e - 53) - 53) (-1074) - (d + e - 53)) with 1
      by lia.
    cbn [shr iter_pos shr_1 shr_m]. change (emax - prec) with 971.
    replace (d + e - 53 + 1) with (d + e - 52) by lia.
    destruct (Z.leb_spec (d + e - 52) 971); [reflexivity | lia].
Qed.

Lemma binary_round_below p e :
  -1074 <= e <= -46 ->
  Z.pos p < Z.pos SF.m100 * 2 ^ (-46 - e) ->
  le_hundred (binary_round prec emax false p e).
Proof.
  intros He Hp. unfold le_hundred, SF.m100 in *.
  set (k := -46 - e) in *.
  assert (Hk : 0 <= k) by lia.
  assert (H2k : 0 < 2 ^ k) by (apply Z.pow_pos_nonneg; lia).
  pose proof (SF.digits2_pos_bounds p) as [Hlo Hhi].
  set (d := Z.pos (digits2_pos p)) in *.
  assert (Hd0 : 0 < d) by (unfold d; lia).
  assert (Hke : k = -46 - e) by reflexivity.
  assert (Hd : d <= 53 + k).
  { destruct (Z.le_gt_cases d (53 + k)) as [H | H]; [assumption|].
    assert (2 ^ (53 + k) <= 2 ^ (d - 1)) by (apply Z.pow_le_mono_r; lia).
    rewrite Z.pow_add_r in H0 by lia.
    change (2 ^ 53) with 9007199254740992 in H0. nia. }
  unfold binary_round. fold d. rewrite fexp_eq.
  set (fe := Z.max (d + e - 53) (-1074)).
  destruct (Z.le_gt_cases fe e) as [Hfe | Hfe].
  - (* no bit is lost *)
    destruct (shl_align_spec p e fe Hfe) as (mz & -> & Hmz).
    assert (Hj : 0 <= e - fe) by lia.
    assert (H2j : 0 < 2 ^ (e - fe)) by (apply Z.pow_pos_nonneg; lia).
    assert (Hdz : Z.pos (digits2_pos mz) = d + (e - fe)).
    { apply digits2_pos_unique. rewrite Hmz.
      replace (d + (e - fe) - 1) with ((d - 1) + (e - fe)) by lia.
      rewrite !Z.pow_add_r by lia. nia. }
    rewrite binary_round_aux_canonical.
    + right. exists mz, fe. split; [reflexivity|].
      destruct (Z.eq_dec fe (-46)) as [E | E]; [right | left; lia].
      split; [assumption|].
      assert (Ee : e - fe = 0) by lia. rewrite Ee in Hmz.
      assert (Ek : k = 0) by (unfold k; lia). rewrite Ek in Hp.
      change (2 ^ 0) with 1 in Hmz, Hp. lia.
    + rewrite Hdz, fexp_eq. unfold fe. lia.
    + lia.
  - (* the mantissa is rounded to 53 bits *)
    rewrite shl_align_id by lia.
    assert (Hfe' : fe = d + e - 53) by (unfold fe in *; lia).
    destruct (binary_round_aux_shift p e) as (m2 & Hm2 & Hb2 & ->);
      fold d; try lia.
    fold d in Hm2.
    assert (Hq : 0 < 2 ^ (d - 53)) by (apply Z.pow_pos_nonneg; lia).
    change (2 ^ 53) with 9007199254740992 in *.
    change (2 ^ 52) with 4503599627370496 in *.
    right.
    destruct (Z.ltb_spec (Z.pos m2) 9007199254740992) as [Hlt | Hge].
    + exists m2, (d + e - 53). split; [reflexivity|].
      destruct (Z.eq_dec (d + e - 53) (-46)) as [E | E]; [right | left; lia].
      split; [assumption|].
      assert (Ek : d - 53 = k) by (unfold k; lia). rewrite Ek in Hm2.
      assert (Z.pos p / 2 ^ k < 7036874417766400)
        by (apply Z.div_lt_upper_bound; lia).
      lia.
    + exists 4503599627370496%positive, (d + e - 52).
      split; [reflexivity|].
      destruct (Z.eq_dec (d + e - 52) (-46)) as [E | E]; [right | left].
      * split; [assumption | lia].
      * assert (d + e - 53 <> -46).
        { intros E'. assert (Ek : d - 53 = k) by (unfold k; lia).
          rewrite Ek in Hm2.
          assert (Z.pos p / 2 ^ k < 7036874417766400)
            by (apply Z.div_lt_upper_bound; lia).
          lia. }
        lia.
Qed.

Lemma nonneg_binary_round_aux m e l :
  nonneg (binary_round_aux prec emax false m e l).
Proof.
  destruct (binary_round_aux_sign false m e l)
    as [-> | [-> | [-> | (m' & e' & ->)]]]; cbn; auto.
Qed.

Lemma nonneg_sqrt x : nonneg (SF64sqrt x).
Proof.
  destruct x as [s | [] | | [] m e]; cbn [SF64sqrt SFsqrt nonneg]; auto.
  unfold SF64sqrt, SFsqrt.
  destruct (SFsqrt_core_binary prec emax (Z.pos m) e) as [[mz ez] lz].
  apply nonneg_binary_round_aux.
Qed.

Lemma nonneg_mul x m e :
  nonneg x -> nonneg (SF64mul x (S754_finite false m e)).
Proof.
  destruct x as [s | s | | s mx ex]; cbn [nonneg]; intros H; subst;
    unfold SF64mul, SFmul; cbn [xorb nonneg]; auto.
  apply nonneg_binary_round_aux.
Qed.

Lemma sub_hundred y :
  valid_binary y = true -> nonneg y -> SFltb SF.hundred y = false ->
  at_most_hundred (SF64sub SF.hundred y).
Proof.
  intros Hv Hn Hlt.
  destruct y as [s | s | | s m e]; cbn [nonneg] in Hn; subst.
  - right; left. reflexivity.
  - discriminate Hlt.
  - left. reflexivity.
  - apply SF.valid_finite in Hv as (He & Hm & _).
    apply not_true_iff_false in Hlt. unfold SF.hundred in Hlt.
    rewrite SF.SFltb_pos in Hlt.
    assert (He' : e <= -46) by lia.
    assert (Hm' : e = -46 -> Z.pos m <= Z.pos SF.m100) by (unfold SF.m100; lia).
    right; right.
    unfold SF64sub, SFsub, SF.hundred. cbv beta iota zeta.
    rewrite (Z.min_r (-46) e) by lia.
    destruct (shl_align_spec 7036874417766400 (-46) e He') as (a & -> & Ha).
    rewrite (shl_align_id m e e) by lia.
    cbn [fst cond_Zopp].
    fold SF.m100 in Ha.
    assert (H2k : 0 < 2 ^ (-46 - e)) by (apply Z.pow_pos_nonneg; lia).
    change (2 ^ 53) with 9007199254740992 in Hm.
    assert (Hpos : Z.pos m <= Z.pos a).
    { rewrite Ha. destruct (Z.eq_dec e (-46)) as [-> | Hne].
      - change (2 ^ (-46 - -46)) with 1. lia.
      - assert (2 ^ 1 <= 2 ^ (-46 - e)) by (apply Z.pow_le_mono_r; lia).
        change (2 ^ 1) with 2 in *. unfold SF.m100. nia. }
    destruct (Z.pos a - Z.pos m) as [| p | p] eqn:Ed; try lia.
    + left. reflexivity.
    + cbn [binary_normalize]. apply binary_round_below; [lia|].
      rewrite <- Ha. lia.
Qed.

Lemma at_most_hundred_spec r :
  at_most_hundred r ->
  SFltb r (S754_zero false) = false /\ SFltb SF.hundred r = false.
Proof.
  assert (Hh : SFltb SF.hundred SF.hundred = false).
  { apply not_true_iff_false. unfold SF.hundred. rewrite SF.SFltb_pos. lia. }
  intros [-> | [-> | [-> | (m & e & -> & H)]]].
  - split; reflexivity.
  - split; [reflexivity | exact Hh].
  - split; reflexivity.
  - split; [reflexivity|].
    apply not_true_iff_false. unfold SF.hundred. rewrite SF.SFltb_pos.
    unfold SF.m100 in H. lia.
Qed.

(** ** One infinite or NaN speed makes the standard deviation NaN *)

Lemma fnan_eq f : fnan f -> f = nan.
Proof. intros H. apply Prim2SF_inj. rewrite Prim2SF_nan. exact H. Qed.

Lemma fnan_finf s f : fnan f -> finf s f.
Proof. intros H. right. exact H. Qed.

Lemma fold_add_inf s t : forall acc,
  finf s acc \/ (exists v, In v t /\ finf s v) ->
  finf s (fold_left PrimFloat.add t acc).
Proof.
  induction t as [| x t IH]; intros acc H; cbn [fold_left].
  - destruct H as [H | (v & [] & _)]. exact H.
  - apply IH. destruct H as [H | (v & [<- | Hin] & Hv)].
    + left. unfold finf. rewrite add_spec. apply SFadd_inf_l, H.
    + left. unfold finf. rewrite add_spec. apply SFadd_inf_r, Hv.
    + right. exists v. split; assumption.
Qed.

Lemma sum_inf s l v : In v l -> finf s v -> finf s (Np.sum l).
Proof.
  destruct l as [| x t]; intros Hin Hv; [destruct Hin|].
  cbn [Np.sum]. apply fold_add_inf. destruct Hin as [<- | Hin]; eauto.
Qed.

Lemma fold_add_nan t : forall acc,
  fnan acc \/ (exists v, In v t /\ fnan v) ->
  fnan (fold_left PrimFloat.add t acc).
Proof.
  induction t as [| x t IH]; intros acc H; cbn [fold_left].
  - destruct H as [H | (v & [] & _)]. exact H.
  - apply IH. destruct H as [H | (v & [<- | Hin] & Hv)].
    + left. unfold fnan in *. rewrite add_spec, H. reflexivity.
    + left. unfold fnan in *. rewrite add_spec, Hv. apply SFadd_nan_r.
    + right. exists v. split; assumption.
Qed.

Lemma sum_nan l v : In v l -> fnan v -> fnan (Np.sum l).
Proof.
  destruct l as [| x t]; intros Hin Hv; [destruct Hin|].
  cbn [Np.sum]. apply fold_add_nan. destruct Hin as [<- | Hin]; eauto.
Qed.

Lemma sign_clear_count l : sign_clear (Prim2SF (Np.count l)).
Proof. apply sign_clear_float_of_Z. lia. Qed.

Lemma mean_inf s l v : In v l -> finf s v -> finf s (Np.mean l).
Proof.
  intros Hin Hv. unfold Np.mean, finf. rewrite div_spec.
  apply SFdiv_inf_sign_clear;
    [apply (sum_inf s l v Hin Hv) | apply sign_clear_count].
Qed.

Lemma mean_nan l v : In v l -> fnan v -> fnan (Np.mean l).
Proof.
  intros Hin Hv. unfold Np.mean, fnan. rewrite div_spec.
  rewrite (sum_nan l v Hin Hv). reflexivity.
Qed.

(** One infinite or NaN element makes the standard deviation NaN. *)
Lemma std_nan s l v : In v l -> finf s v -> Np.std l = nan.
Proof.
  intros Hin Hv. apply fnan_eq. unfold Np.std, fnan.
  rewrite sqrt_spec.
  set (m := Np.mean l).
  assert (Hm : finf s m) by (apply (mean_inf s l v Hin Hv)).
  set (sq := map (fun v0 => (v0 * v0)%float)
               (map (fun v0 => (v0 - m)%float) l)).
  assert (Hsq : In ((v - m) * (v - m))%float sq).
  { unfold sq. apply in_map with (f := fun v0 => (v0 * v0)%float).
    apply in_map with (f := fun v0 => (v0 - m)%float). exact Hin. }
  assert (Hd : fnan ((v - m) * (v - m))%float).
  { unfold fnan. rewrite mul_spec, sub_spec.
    rewrite (SFsub_inf_inf s _ _ Hv Hm). reflexivity. }
  change (SF64sqrt (Prim2SF (Np.sum sq / Np.count l)) = S754_nan).
  rewrite div_spec, (sum_nan sq _ Hsq Hd). reflexivity.
Qed.

(** ** The range of the stability statistic *)

Lemma float_of_0 : Num.float_of_Z 0 = 0%float.
Proof. vm_compute. reflexivity. Qed.
Lemma float_of_10 : Num.float_of_Z 10 = 10%float.
Proof. vm_compute. reflexivity. Qed.
Lemma Prim2SF_10 : Prim2SF 10 = S754_finite false 5629499534213120 (-49).
Proof. vm_compute. reflexivity. Qed.
Lemma Prim2SF_0 : Prim2SF 0 = S754_zero false.
Proof. vm_compute. reflexivity. Qed.

(** [100 - min(sqrt(v) * 10, 100)] is never below 0 nor above 100. *)
Lemma stability_range v :
  let st := Num.sub (PyInt 100)
              (Num.min (Num.mul (Float (PrimFloat.sqrt v)) (PyInt 10))
                 (PyInt 100)) in
  Num.ltb st (PyInt 0) = false /\ Num.gtb st (PyInt 100) = false.
Proof.
  cbv zeta. unfold Num.min, Num.gtb.
  change (Num.mul (Float (PrimFloat.sqrt v)) (PyInt 10))
    with (Float (PrimFloat.sqrt v * Num.float_of_Z 10)).
  rewrite float_of_10.
  set (a := (PrimFloat.sqrt v * 10)%float).
  change (Num.ltb (PyInt 100) (Float a))
    with (Num.float_of_Z 100 <? a)%float.
  rewrite Const.float_of_100.
  destruct (100 <? a)%float eqn:Elt.
  - split; reflexivity.
  - change (Num.sub (PyInt 100) (Float a))
      with (Float (Num.float_of_Z 100 - a)).
    rewrite Const.float_of_100.
    change (Num.ltb (Float (100 - a)) (PyInt 0))
      with ((100 - a) <? Num.float_of_Z 0)%float.
    change (Num.ltb (PyInt 100) (Float (100 - a)))
      with (Num.float_of_Z 100 <? (100 - a))%float.
    rewrite float_of_0, Const.float_of_100.
    rewrite !ltb_spec, sub_spec, Const.Prim2SF_100, Prim2SF_0.
    rewrite ltb_spec, Const.Prim2SF_100 in Elt.
    apply at_most_hundred_spec, sub_hundred.
    + apply Prim2SF_valid.
    + unfold a. rewrite mul_spec, sqrt_spec, Prim2SF_10.
      apply nonneg_mul, nonneg_sqrt.
    + exact Elt.
Qed.

Lemma compute_stability_range df ds s :
  compute_stability df ds = inr s ->
  Num.ltb s (PyInt 0) = false /\ Num.gtb s (PyInt 100) = false.
Proof.
  unfold compute_stability.
  destruct (Nat.ltb 1 (List.length ds)).
  - destruct (Pd.getitem df "elapsedTime(seconds)") as [e | t];
      [discriminate|]. cbn [bind].
    destruct (np_diff t) as [e | dts]; [discriminate|]. cbn [bind].
    destruct (Np.divide ds dts) as [e | speeds]; [discriminate|].
    cbn [bind ret]. intros H. injection H as <-.
    apply stability_range.
  - intros H. injection H as <-. split; reflexivity.
Qed.

Lemma extract_statistics_stability df st :
  extract_statistics df = inr st ->
  exists ds, compute_stability df ds = inr (stability st).
Proof.
  unfold extract_statistics.
  destruct (col_range df "elapsedTime(seconds)") as [e | d];
    [discriminate|]. cbn [bind].
  destruct (distances_loop df _ []) as [e | ds]; [discriminate|].
  cbn [bind].
  destruct (col_range df "x") as [e | xr]; [discriminate|]. cbn [bind].
  destruct (col_range df "y") as [e | yr]; [discriminate|]. cbn [bind].
  destruct (compute_stability df ds) as [e | s] eqn:Es; [discriminate|].
  cbn [bind ret]. intros H. injection H as <-. exists ds. exact Es.
Qed.

Lemma stability_within df st :
  extract_statistics df = inr st ->
  Num.ltb (stability st) (PyInt 0) = false /\
  Num.gtb (stability st) (PyInt 100) = false.
Proof.
  intros H. apply extract_statistics_stability in H as (ds & H).
  exact (compute_stability_range df ds _ H).
Qed.

(** ** Frames whose three columns are [float64] *)

Lemma upcast_float d f : Pd.upcast d (VNum (Float f)) = VNum (Float f).
Proof. destruct d; reflexivity. Qed.

Lemma iloc_float df name l i f :
  Pd.getitem df name = inr (SFloat l) ->
  (i < Pd.len df)%nat -> nth_error l i = Some f ->
  Pd.iloc df i name = inr (VNum (Float f)).
Proof.
  intros Hg Hi Hn. unfold Pd.iloc.
  destruct (Nat.leb_spec (Pd.len df) i); [lia|].
  rewrite Hg. cbn [bind Pd.cell]. rewrite Hn. cbn [option_map].
  rewrite upcast_float. reflexivity.
Qed.

Lemma diffF_length l : List.length (Pd.diffF l) = (List.length l - 1)%nat.
Proof.
  induction l as [| x [| y t] IH]; try reflexivity.
  change (Pd.diffF (x :: y :: t)) with ((y - x)%float :: Pd.diffF (y :: t)).
  cbn [List.length] in *. rewrite IH. lia.
Qed.

Lemma divide_spec a : forall b,
  List.length a = List.length b ->
  exists r, Np.divide a b = inr r /\
    forall i x y, nth_error a i = Some x -> nth_error b i = Some y ->
      nth_error r i = Some (x / y)%float.
Proof.
  induction a as [| x a IH]; intros [| y b] Hlen; try discriminate.
  - exists []. split; [reflexivity|]. intros [|i] ? ? H; discriminate.
  - injection Hlen as Hlen. destruct (IH b Hlen) as (r & Hr & Hnth).
    exists ((x / y)%float :: r). split.
    + cbn [Np.divide]. rewrite Hr. reflexivity.
    + intros [| i] x' y' Hx Hy; cbn in *.
      * injection Hx as <-. injection Hy as <-. reflexivity.
      * apply Hnth; assumption.
Qed.

Lemma json_dumps_num n :
  json_ready n = true -> exists j, json_dumps (ONum (py_round2 n)) = inr j.
Proof. destruct n; intros H; try discriminate; eexists; reflexivity. Qed.

Lemma json_dumps_cons k v rest v' ms :
  json_dumps v = inr v' -> json_dumps (ODict rest) = inr (JObject ms) ->
  json_dumps (ODict ((k, v) :: rest)) = inr (JObject ((k, v') :: ms)).
Proof.
  intros Hv Hrest. cbn [json_dumps] in *. rewrite Hv. cbn [bind].
  match type of Hrest with
  | bind ?m _ = _ => destruct m as [e | ms'] eqn:Em; [discriminate|]
  end.
  cbn in Hrest. injection Hrest as <-. reflexivity.
Qed.

Lemma ready_statistics_succeed read_csv csv df st :
  read_csv csv = inr df -> extract_statistics df = inr st ->
  statistics_ready st = true ->
  exists j, analyze_body read_csv csv = inr j.
Proof.
  intros Hdf Hst Hr. unfold analyze_body. rewrite Hdf. cbn [bind].
  rewrite Hst. cbn [bind].
  set (a := calculate_attention_score _ _ _ _ _).
  destruct (clamped_int_label a) as (z & Hi & _).
  { apply calculate_attention_score_clamped. }
  unfold success_result. rewrite Hi. cbn [bind ret].
  unfold statistics_ready in Hr.
  repeat (apply andb_true_iff in Hr as [Hr ?]).
  assert (Htp : exists j0, json_dumps (ONum (total_points st)) = inr j0).
  { destruct (total_points st); try discriminate; eexists; reflexivity. }
  destruct Htp as (j0 & E0).
  destruct (json_dumps_num (duration st)) as (j1 & E1); [assumption|].
  destruct (json_dumps_num (avg_distance st)) as (j2 & E2); [assumption|].
  destruct (json_dumps_num (total_distance st)) as (j3 & E3); [assumption|].
  destruct (json_dumps_num (stability st)) as (j4 & E4); [assumption|].
  destruct (json_dumps_num (coverage_area st)) as (j5 & E5); [assumption|].
  eexists.
  apply json_dumps_cons; [reflexivity|].
  apply json_dumps_cons.
  - repeat (apply json_dumps_cons; [eassumption|]). reflexivity.
  - apply json_dumps_cons; reflexivity.
Qed.

Lemma is_zero_spec d : is_zero d = true -> exists s, Prim2SF d = S754_zero s.
Proof.
  unfold is_zero. rewrite eqb_spec, Prim2SF_zero.
  destruct (Prim2SF d) as [s | s | | s m e]; try discriminate; eauto.
  - destruct s; discriminate.
  - destruct s; discriminate.
Qed.

Lemma div_by_zero x d : is_zero d = true -> exists s, finf s (x / d)%float.
Proof.
  intros H. apply is_zero_spec in H as (s & Hs).
  destruct (SFdiv_zero (Prim2SF x) s) as (s' & Hs').
  exists s'. unfold finf. rewrite div_spec, Hs. exact Hs'.
Qed.

Lemma nan_stability :
  Num.sub (PyInt 100) (Num.min (Num.mul (Float nan) (PyInt 10)) (PyInt 100))
  = Float nan.
Proof. vm_compute. reflexivity. Qed.

Section FloatFrame.

Variable df : DataFrame.
Variables ts xs ys : list float.
Hypothesis Ht : Pd.getitem df "elapsedTime(seconds)" = inr (SFloat ts).
Hypothesis Hx : Pd.getitem df "x" = inr (SFloat xs).
Hypothesis Hy : Pd.getitem df "y" = inr (SFloat ys).
Hypothesis Hlt : List.length ts = Pd.len df.
Hypothesis Hlx : List.length xs = Pd.len df.
Hypothesis Hly : List.length ys = Pd.len df.

Lemma nth_some (l : list float) i :
  (i < List.length l)%nat -> exists f, nth_error l i = Some f.
Proof.
  intros H. destruct (nth_error l i) eqn:E; [eauto|].
  apply nth_error_None in E. lia.
Qed.

Lemma step_distance_float i :
  (1 <= i < Pd.len df)%nat -> exists d, step_distance df i = inr d.
Proof.
  intros Hi. unfold step_distance.
  destruct (nth_some xs i) as (xi & Exi); [lia|].
  destruct (nth_some xs (i - 1)) as (xp & Exp); [lia|].
  destruct (nth_some ys i) as (yi & Eyi); [lia|].
  destruct (nth_some ys (i - 1)) as (yp & Eyp); [lia|].
  rewrite (iloc_float df "x" xs i xi Hx), (iloc_float df "x" xs (i-1) xp Hx),
    (iloc_float df "y" ys i yi Hy), (iloc_float df "y" ys (i-1) yp Hy);
    try assumption; try lia.
  cbn [bind val_sub ret]. eexists. reflexivity.
Qed.

Lemma distances_loop_float range : forall acc,
  Forall (fun i => (1 <= i < Pd.len df)%nat) range ->
  exists ds, distances_loop df range acc = inr (acc ++ ds)%list /\
    List.length ds = List.length range.
Proof.
  induction range as [| i rest IH]; intros acc Hr; cbn [distances_loop].
  - exists []. rewrite app_nil_r. split; reflexivity.
  - inversion Hr as [| ? ? Hi Hrest]; subst.
    destruct (step_distance_float i Hi) as (d & ->). cbn [bind].
    destruct (IH (acc ++ [d])%list Hrest) as (ds & -> & Hlen).
    exists (d :: ds). rewrite <- app_assoc. cbn. split; [reflexivity | lia].
Qed.

Lemma col_range_float name l :
  Pd.getitem df name = inr (SFloat l) ->
  exists f, col_range df name = inr (Float f).
Proof.
  intros Hg. unfold col_range. rewrite Hg. cbn. eexists. reflexivity.
Qed.


Section ZeroDelta.

Hypothesis Hrows : (3 <= Pd.len df)%nat.
Variable i : nat.
Variable dt : float.
Hypothesis Hdt : nth_error (Pd.diffF ts) i = Some dt.
Hypothesis Hzero : is_zero dt = true.

Lemma zero_delta_stability ds :
  List.length ds = (Pd.len df - 1)%nat ->
  compute_stability df ds = inr (Float nan).
Proof.
  intros Hds. unfold compute_stability.
  destruct (Nat.ltb_spec 1 (List.length ds)); [|lia].
  rewrite Ht. cbn [bind np_diff ret].
  destruct (divide_spec ds (Pd.diffF ts)) as (speeds & -> & Hnth).
  { rewrite diffF_length. lia. }
  cbn [bind].
  assert (Hi : (i < List.length ds)%nat).
  { rewrite Hds, <- Hlt, <- diffF_length. apply nth_error_Some. congruence. }
  destruct (nth_error ds i) as [d |] eqn:Ed;
    [| apply nth_error_None in Ed; lia].
  specialize (Hnth i d dt Ed Hdt).
  destruct (div_by_zero d dt Hzero) as (s & Hs).
  rewrite (std_nan s speeds _ (nth_error_In _ _ Hnth) Hs).
  rewrite nan_stability. reflexivity.
Qed.

Lemma zero_delta_statistics :
  exists st, extract_statistics df = inr st /\
    stability st = Float nan /\ statistics_ready st = true.
Proof.
  unfold extract_statistics.
  destruct (col_range_float "elapsedTime(seconds)" ts Ht) as (fd & ->).
  cbn [bind].
  destruct (distances_loop_float (seq 1 (Pd.len df - 1)) [])
    as (ds & -> & Hlen).
  { apply Forall_forall. intros k Hk. apply in_seq in Hk. lia. }
  rewrite length_seq in Hlen. cbn [bind app].
  destruct (col_range_float "x" xs Hx) as (fx & ->).
  destruct (col_range_float "y" ys Hy) as (fy & ->).
  cbn [bind]. rewrite (zero_delta_stability ds Hlen). cbn [bind ret].
  destruct (Nat.eqb_spec (List.length ds) 0); [lia|]. cbn [negb].
  eexists. split; [reflexivity|]. split; reflexivity.
Qed.

End ZeroDelta.

End FloatFrame.

(** ** The shape of the two response variants *)

Lemma failure_shape e :
  is_failure (error_result e) = true /\
  is_success (error_result e) = false /\
  score_of (error_result e) = Some 0 /\
  error_of (error_result e) = Some (str_exn e) /\
  message_of (error_result e) = Some "Analysis failed".
Proof. repeat split. Qed.

(** ** The shape of the Success document *)




Lemma success_not_failure j : is_success j = true -> is_failure j = false.
Proof.
  unfold is_success, is_failure.
  destruct (member "analysis" j) as [[] |]; try discriminate; reflexivity.
Qed.



(** ** Tables of fewer than two rows *)

Lemma is_finite_class f :
  is_finite f = true ->
  (exists s, Prim2SF f = S754_zero s) \/
  (exists s m e, Prim2SF f = S754_finite s m e).
Proof.
  unfold is_finite, is_nan, is_infinity.
  rewrite !FloatAxioms.eqb_spec, abs_spec, Prim2SF_infinity.
  destruct (Prim2SF f) as [s | s | | s m e]; eauto.
  - destruct s; discriminate.
  - discriminate.
Qed.

Lemma SFcompare_refl_finite s m e :
  SFcompare (S754_finite s m e) (S754_finite s m e) = Some Eq.
Proof.
  unfold SFcompare. rewrite Z.compare_refl.
  change (Pos.compare_cont Eq m m) with (Pos.compare m m).
  rewrite Pos.compare_refl. destruct s; reflexivity.
Qed.

Lemma is_finite_not_nan f : is_finite f = true -> Pd.not_nan f = true.
Proof.
  intros H. unfold Pd.not_nan, is_nan. rewrite FloatAxioms.eqb_spec.
  destruct (is_finite_class f H) as [(s & ->) | (s & m & e & ->)].
  - reflexivity.
  - unfold SFeqb. rewrite SFcompare_refl_finite. reflexivity.
Qed.

Lemma sub_diag f : is_finite f = true -> (f - f)%float = 0%float.
Proof.
  intros H. apply Prim2SF_inj. rewrite sub_spec, Prim2SF_0.
  destruct (is_finite_class f H) as [(s & ->) | (s & m & e & ->)].
  - destruct s; reflexivity.
  - unfold SF64sub, SFsub. cbv beta iota zeta.
    rewrite Z.min_id, (shl_align_id m e e) by lia.
    cbn [fst]. rewrite Z.sub_diag. reflexivity.
Qed.

Lemma col_range_single df name f :
  Pd.getitem df name = inr (SFloat [f]) -> is_finite f = true ->
  col_range df name = inr (Float 0).
Proof.
  intros Hg Hf. unfold col_range. rewrite Hg. cbn [bind Pd.max Pd.min filter].
  rewrite (is_finite_not_nan f Hf). cbn [Pd.fold1 fold_left val_sub ret].
  change (Num.sub (Float f) (Float f)) with (Float (f - f)).
  rewrite (sub_diag f Hf). reflexivity.
Qed.

Lemma few_rows_extract df d xr yr :
  (Pd.len df < 2)%nat ->
  col_range df "elapsedTime(seconds)" = inr d ->
  col_range df "x" = inr xr ->
  col_range df "y" = inr yr ->
  extract_statistics df =
    inr {| total_points := PyInt (Z.of_nat (Pd.len df));
           duration := d;
           avg_distance := PyInt 0;
           total_distance := PyInt 0;
           coverage_area := Num.mul xr yr;
           stability := PyInt 50 |}.
Proof.
  intros Hlen Hd Hx Hy. unfold extract_statistics.
  rewrite Hd. cbn [bind].
  replace (Pd.len df - 1)%nat with 0%nat by lia.
  cbn [seq distances_loop ret bind].
  rewrite Hx, Hy. reflexivity.
Qed.

(** A single row of finite [float64] values scores 68 whatever the values. *)
Lemma float_row_scores_68 read_csv csv df t x y :
  read_csv csv = inr df -> Pd.len df = 1%nat ->
  Pd.getitem df "elapsedTime(seconds)" = inr (SFloat [t]) ->
  Pd.getitem df "x" = inr (SFloat [x]) ->
  Pd.getitem df "y" = inr (SFloat [y]) ->
  is_finite t = true -> is_finite x = true -> is_finite y = true ->
  analyze_gaze_data read_csv csv =
    JObject
      [ ("score", JInt 68);
        ("analysis", JObject
          [ ("total_points", JInt 1);
            ("duration_seconds", JFloat 0);
            ("average_movement", JInt 0);
            ("total_movement", JInt 0);
            ("stability_score", JInt 50);
            ("coverage_area", JFloat 0) ]);
        ("message", JString "Analysis completed: Moderate attention focus") ].
Proof.
  intros Hcsv Hlen Ht Hx Hy Ft Fx Fy.
  unfold analyze_gaze_data, analyze_body. rewrite Hcsv. cbn [bind].
  rewrite (few_rows_extract df (Float 0) (Float 0) (Float 0));
    try (apply col_range_single with (f := t); assumption);
    try (eapply col_range_single; eassumption); [| lia].
  rewrite Hlen. vm_compute. reflexivity.
Qed.

(** ** The claims *)

(** C1: for every input text the returned document is either the Success
    variant, whose [score] is an integer between 1 and 100 (the clamped
    total, truncated toward zero), or the Failure variant, whose [score] is
    exactly 0. *)
Theorem score_range read_csv csv :
  let j := analyze_gaze_data read_csv csv in
  (is_success j = true /\ exists z, score_of j = Some z /\ 1 <= z <= 100) \/
  (is_failure j = true /\ score_of j = Some 0).
Proof.
  unfold analyze_gaze_data.
  destruct (analyze_body read_csv csv) as [e | j] eqn:E.
  - right. split; apply failure_shape.
  - left.
    apply success_shape in E
      as (df & st & z & _ & _ & Hz & Hs & _ & Hsc & _).
    split; [assumption|]. exists z. split; assumption.
Qed.




(** C3 (amended): on a frame of at least three rows whose three columns
    are [float64], a zero elapsed-time delta raises nothing.  NumPy's
    division returns an infinity or NaN for that step, the standard
    deviation of the speeds and with it the stability are NaN, the
    statistics are derived, and the pipeline answers with the Success
    variant, not the Failure variant. *)
Theorem zero_delta_is_not_an_error df ts xs ys i dt :
  Pd.getitem df "elapsedTime(seconds)" = inr (SFloat ts) ->
  Pd.getitem df "x" = inr (SFloat xs) ->
  Pd.getitem df "y" = inr (SFloat ys) ->
  List.length ts = Pd.len df ->
  List.length xs = Pd.len df ->
  List.length ys = Pd.len df ->
  (3 <= Pd.len df)%nat ->
  nth_error (Pd.diffF ts) i = Some dt -> is_zero dt = true ->
  (exists st, extract_statistics df = inr st /\ stability st = Float nan) /\
  (forall read_csv csv, read_csv csv = inr df ->
     is_success (analyze_gaze_data read_csv csv) = true /\
     is_failure (analyze_gaze_data read_csv csv) = false).
Proof.
  intros Ht Hx Hy Hlt Hlx Hly Hrows Hdt Hzero.
  destruct (zero_delta_statistics df ts xs ys Ht Hx Hy Hlt Hlx Hly Hrows
              i dt Hdt Hzero) as (st & Hst & Hnan & Hready).
  split; [exists st; split; assumption|].
  intros read_csv csv Hcsv.
  destruct (ready_statistics_succeed read_csv csv df st Hcsv Hst Hready)
    as (j & Hj).
  unfold analyze_gaze_data. rewrite Hj.
  apply success_shape in Hj as (_ & _ & _ & _ & _ & _ & Hs & Hf & _).
  split; assumption.
Qed.

Lemma zero_delta_is_not_an_error_witness :
  (exists st, extract_statistics stalled_frame = inr st /\
     stability st = Float nan) /\
  (forall read_csv csv, read_csv csv = inr stalled_frame ->
     is_success (analyze_gaze_data read_csv csv) = true /\
     is_failure (analyze_gaze_data read_csv csv) = false).
Proof.
  apply (zero_delta_is_not_an_error stalled_frame
           [0.0; 0.5; 0.5]%float [1.0; 2.0; 4.0]%float
           [1.0; 1.0; 1.0]%float 1%nat 0%float);
    reflexivity.
Defined.

(** The claim as stated fails on the three rows of [stalled_frame], whose
    last two timestamps are equal: no stage raises, and the answer is the
    Success variant with a NaN stability and score 100. *)
Lemma zero_delta_counterexample :
  Pd.len stalled_frame = 3%nat /\
  nth_error (Pd.diffF [0.0; 0.5; 0.5]%float) 1 = Some 0%float /\
  ~ (exists e, extract_statistics stalled_frame = inl e) /\
  is_failure (analyze_gaze_data sample_reader stalled_csv) = false /\
  analyze_gaze_data sample_reader stalled_csv =
    JObject
      [ ("score", JInt 100);
        ("analysis", JObject
          [ ("total_points", JInt 3);
            ("duration_seconds", JFloat 0.5);
            ("average_movement", JFloat 1.5);
            ("total_movement", JFloat 3);
            ("stability_score", JFloat nan);
            ("coverage_area", JFloat 0) ]);
        ("message",
          JString "Analysis completed: Excellent attention patterns") ].
Proof.
  split; [reflexivity|]. split; [reflexivity|]. split.
  - intros (e & He). vm_compute in He. discriminate He.
  - split; vm_compute; reflexivity.
Qed.

(** C4 (amended): whenever the statistics are derived, stability neither
    exceeds 100 nor falls below 0: the subtracted term [min(std * 10, 100)]
    is NaN or lies between 0 and 100, so stability is NaN, the integer 0,
    or a float between 0 and 100. *)
Theorem stability_between_0_and_100 df st :
  extract_statistics df = inr st ->
  Num.gtb (stability st) (PyInt 100) = false /\
  Num.ltb (stability st) (PyInt 0) = false.
Proof.
  intros H. apply stability_within in H as [Hlo Hhi]. split; assumption.
Qed.

Lemma stability_between_0_and_100_witness :
  Num.gtb (stability example_statistics) (PyInt 100) = false /\
  Num.ltb (stability example_statistics) (PyInt 0) = false.
Proof.
  apply (stability_between_0_and_100 example_frame example_statistics).
  vm_compute. reflexivity.
Defined.

(** The claim as stated fails: no input makes stability negative. *)
Lemma stability_never_negative :
  ~ (exists df st, extract_statistics df = inr st /\
       Num.ltb (stability st) (PyInt 0) = true).
Proof.
  intros (df & st & H & Hneg).
  apply stability_within in H as [Hlo _]. congruence.
Qed.

(** C5: boundary values of the score calculator.  Durations 10 and 30
    score 25, average movements 50 and 200 score 10, 100 points give a
    quality score of 15 and 0 points give 0. *)
Theorem boundary_scores :
  duration_score (Float 10) = PyInt 25 /\
  duration_score (Float 30) = PyInt 25 /\
  duration_score (NpInt 10) = PyInt 25 /\
  duration_score (NpInt 30) = PyInt 25 /\
  movement_score (Float 50) = PyInt 10 /\
  movement_score (Float 200) = PyInt 10 /\
  quality_score (PyInt 100) = Float 15 /\
  quality_score (PyInt 0) = Float 0.
Proof. vm_compute. repeat split. Qed.

(** C6: with fewer than two rows the distance list is empty, so the
    average and total distance are 0 and stability is 50; the derivation
    succeeds as soon as the three column ranges can be computed. *)
Theorem few_rows_statistics df d xr yr :
  (Pd.len df < 2)%nat ->
  col_range df "elapsedTime(seconds)" = inr d ->
  col_range df "x" = inr xr ->
  col_range df "y" = inr yr ->
  exists st, extract_statistics df = inr st /\
    avg_distance st = PyInt 0 /\ total_distance st = PyInt 0 /\
    stability st = PyInt 50.
Proof.
  intros Hlen Hd Hx Hy.
  rewrite (few_rows_extract df d xr yr Hlen Hd Hx Hy).
  eexists. split; [reflexivity|]. repeat split.
Qed.

Lemma few_rows_statistics_witness :
  exists st, extract_statistics float_row_frame = inr st /\
    avg_distance st = PyInt 0 /\ total_distance st = PyInt 0 /\
    stability st = PyInt 50.
Proof.
  refine (few_rows_statistics float_row_frame (Float 0) (Float 0) (Float 0)
            _ _ _ _).
  - cbn. lia.
  - vm_compute. reflexivity.
  - vm_compute. reflexivity.
  - vm_compute. reflexivity.
Defined.

(** C7: on integer scores from 1 to 100 the five rows of the label table
    are exhaustive and mutually exclusive, and [get_score_description]
    returns the label of the one row that contains the score. *)
Theorem label_partition z :
  1 <= z <= 100 ->
  exists row, In row label_table /\ in_row z row = true /\
    get_score_description (PyInt z) = row_label row /\
    forall row', In row' label_table -> in_row z row' = true -> row' = row.
Proof.
  intros Hz.
  unfold get_score_description, Num.geb, Num.leb.
  assert (C : 85 <= z \/ 70 <= z <= 84 \/ 55 <= z <= 69 \/ 40 <= z <= 54 \/
              z <= 39)
    by lia.
  destruct C as [C | [C | [C | [C | C]]]];
    [ exists (85, 100, "Excellent attention patterns")
    | exists (70, 84, "Good attention stability")
    | exists (55, 69, "Moderate attention focus")
    | exists (40, 54, "Needs attention improvement")
    | exists (1, 39, "Poor attention patterns") ].
  all: split; [cbn; tauto|].
  all: split;
    [cbn [in_row]; apply andb_true_intro; split; apply Z.leb_le; lia|].
  all: split;
    [ repeat match goal with
             | |- context [Z.leb ?a ?zz] => destruct (Z.leb_spec a zz)
             end; try reflexivity; exfalso; lia |].
  all: intros row' Hin Hrow; cbn in Hin;
    repeat (destruct Hin as [<- | Hin]); try contradiction;
    cbn [in_row] in Hrow; apply andb_true_iff in Hrow as [H1 H2];
    apply Z.leb_le in H1; apply Z.leb_le in H2;
    try reflexivity; exfalso; lia.
Qed.

Lemma label_partition_witness :
  exists row, In row label_table /\ in_row 68 row = true /\
    get_score_description (PyInt 68) = row_label row /\
    forall row', In row' label_table -> in_row 68 row' = true -> row' = row.
Proof. apply (label_partition 68). lia. Defined.

(** C8: on every Success result the message is "Analysis completed: "
    followed by the label of the integer in the [score] field: the label
    that the code computes on the clamped, not yet truncated value is the
    label of its integer part. *)
Theorem message_uses_integer_score read_csv csv :
  is_success (analyze_gaze_data read_csv csv) = true ->
  exists z, score_of (analyze_gaze_data read_csv csv) = Some z /\
    message_of (analyze_gaze_data read_csv csv) =
      Some ("Analysis completed: " ++ get_score_description (PyInt z)).
Proof.
  unfold analyze_gaze_data.
  destruct (analyze_body read_csv csv) as [e | j] eqn:E.
  - intros H. discriminate H.
  - intros _.
    apply success_shape in E
      as (df & st & z & _ & _ & _ & _ & _ & Hsc & Hm).
    exists z. split; assumption.
Qed.

Lemma message_uses_integer_score_witness :
  exists z, score_of (analyze_gaze_data sample_reader example_csv) = Some z /\
    message_of (analyze_gaze_data sample_reader example_csv) =
      Some ("Analysis completed: " ++ get_score_description (PyInt z)).
Proof.
  apply (message_uses_integer_score sample_reader example_csv).
  vm_compute. reflexivity.
Defined.

(** C10: evaluation at a one-row table of integer literals.  Its columns
    are [int64], so the duration and the coverage area are [numpy.int64]
    values, which [json.dumps] refuses: the pipeline answers with the
    Failure variant and score 0, where a one-row table is claimed to score
    68.  ([float_row_scores_68] is the claim on rows of finite floats.) *)
Theorem int_row_is_rejected :
  extract_statistics int_row_frame =
    inr {| total_points := PyInt 1;
           duration := NpInt 0;
           avg_distance := PyInt 0;
           total_distance := PyInt 0;
           coverage_area := NpInt 0;
           stability := PyInt 50 |} /\
  analyze_gaze_data sample_reader int_row_csv =
    error_result (TypeError "Object of type int64 is not JSON serializable") /\
  score_of (analyze_gaze_data sample_reader int_row_csv) = Some 0.
Proof. vm_compute. repeat split. Qed.

(** * Further properties of the pipeline *)

(** ** NaN arguments of the score calculator *)

Lemma is_nan_eq f : is_nan f = true -> f = nan.
Proof.
  unfold is_nan. rewrite FloatAxioms.eqb_spec. intros H.
  apply fnan_eq. unfold fnan.
  destruct (Prim2SF f) as [s | s | | s m e]; try reflexivity.
  - discriminate H.
  - destruct s; discriminate H.
  - unfold SFeqb in H. rewrite SFcompare_refl_finite in H. discriminate H.
Qed.

Lemma is_nan_num_eq n : is_nan_num n = true -> n = Float nan.
Proof.
  destruct n as [z | z | f]; try discriminate. cbn. intros H.
  rewrite (is_nan_eq f H). reflexivity.
Qed.

Lemma float_add_nan_l x : (nan + x)%float = nan.
Proof.
  apply Prim2SF_inj. rewrite add_spec, Prim2SF_nan. reflexivity.
Qed.

Lemma float_add_nan_r x : (x + nan)%float = nan.
Proof.
  apply Prim2SF_inj. rewrite add_spec, Prim2SF_nan. apply SFadd_nan_r.
Qed.

Lemma num_add_nan_l y : Num.add (Float nan) y = Float nan.
Proof.
  destruct y; unfold Num.add, Num.arith; cbn [Num.to_float];
    rewrite float_add_nan_l; reflexivity.
Qed.

Lemma num_add_nan_r x : Num.add x (Float nan) = Float nan.
Proof.
  destruct x; unfold Num.add, Num.arith; cbn [Num.to_float];
    rewrite float_add_nan_r; reflexivity.
Qed.

Lemma clamp_nan :
  Num.max (PyInt 1) (Num.min (PyInt 100) (Float nan)) = PyInt 100.
Proof. vm_compute. reflexivity. Qed.

Lemma duration_score_nan : duration_score (Float nan) = Float nan.
Proof. vm_compute. reflexivity. Qed.
Lemma stability_score_nan : stability_score (Float nan) = Float nan.
Proof. vm_compute. reflexivity. Qed.
Lemma movement_score_nan : movement_score (Float nan) = Float nan.
Proof. vm_compute. reflexivity. Qed.

(** X1: a NaN duration, average movement or stability makes the total
    NaN; [min(100, total)] then keeps 100, because no comparison with a
    NaN holds, and the score is 100 whatever the other arguments are, any
    Python [int] among them being one that converts to a float (a larger
    one raises [OverflowError] in the source). *)
Theorem nan_input_scores_100 d a s c p :
  float_range d = true -> float_range a = true ->
  float_range s = true -> float_range p = true ->
  is_nan_num d = true \/ is_nan_num a = true \/ is_nan_num s = true ->
  calculate_attention_score d a s c p = PyInt 100.
Proof.
  intros _ _ _ _ H. unfold calculate_attention_score.
  assert (Ht : total_score d a s p = Float nan).
  { unfold total_score.
    destruct H as [H | [H | H]]; apply is_nan_num_eq in H; subst.
    - rewrite duration_score_nan, num_add_nan_r, !num_add_nan_l. reflexivity.
    - rewrite movement_score_nan, num_add_nan_r. reflexivity.
    - rewrite stability_score_nan, num_add_nan_r, !num_add_nan_l. reflexivity. }
  rewrite Ht. apply clamp_nan.
Qed.

Lemma nan_input_scores_100_witness :
  calculate_attention_score (Float nan) (PyInt 0) (PyInt 50) (Float 0) (PyInt 1)
  = PyInt 100.
Proof.
  apply (nan_input_scores_100 (Float nan) (PyInt 0) (PyInt 50) (Float 0)
           (PyInt 1)); try reflexivity.
  left. reflexivity.
Defined.

(** ** Success means that [json.dumps] accepts every statistic *)

Lemma json_dumps_fail_head k v rest e :
  json_dumps v = inl e -> json_dumps (ODict ((k, v) :: rest)) = inl e.
Proof. intros H. cbn [json_dumps]. rewrite H. reflexivity. Qed.

Lemma json_dumps_fail_tail k v rest v' e :
  json_dumps v = inr v' -> json_dumps (ODict rest) = inl e ->
  json_dumps (ODict ((k, v) :: rest)) = inl e.
Proof.
  intros Hv Hrest. cbn [json_dumps] in *. rewrite Hv. cbn [bind].
  match type of Hrest with
  | bind ?m _ = _ => destruct m as [e' | ms'] eqn:Em; [|discriminate]
  end.
  cbn in Hrest. injection Hrest as <-. reflexivity.
Qed.

Lemma json_dumps_round n :
  json_ready n = false ->
  json_dumps (ONum (py_round2 n)) = inl (TypeError int64_message).
Proof. destruct n; intros H; try discriminate. reflexivity. Qed.

Lemma json_dumps_plain n :
  json_ready n = false ->
  json_dumps (ONum n) = inl (TypeError int64_message).
Proof. destruct n; intros H; try discriminate. reflexivity. Qed.

Lemma json_dumps_plain_ok n :
  json_ready n = true -> exists j, json_dumps (ONum n) = inr j.
Proof. destruct n; intros H; try discriminate; eexists; reflexivity. Qed.

(** a numpy.int64 among the statistics makes json.dumps raise *)
Lemma unready_statistics_fail read_csv csv df st :
  read_csv csv = inr df -> extract_statistics df = inr st ->
  statistics_ready st = false ->
  analyze_body read_csv csv = inl (TypeError int64_message).
Proof.
  intros Hdf Hst Hr. unfold analyze_body. rewrite Hdf. cbn [bind].
  rewrite Hst. cbn [bind].
  set (a := calculate_attention_score _ _ _ _ _).
  destruct (clamped_int_label a) as (z & Hi & _).
  { apply calculate_attention_score_clamped. }
  unfold success_result. rewrite Hi. cbn [bind ret].
  eapply json_dumps_fail_tail; [reflexivity|].
  apply json_dumps_fail_head.
  unfold statistics_ready in Hr.
  destruct (json_ready (total_points st)) eqn:R0;
    [| apply json_dumps_fail_head, json_dumps_plain, R0].
  destruct (json_dumps_plain_ok _ R0) as (j0 & E0).
  eapply json_dumps_fail_tail; [exact E0|].
  destruct (json_ready (duration st)) eqn:R1;
    [| apply json_dumps_fail_head, json_dumps_round, R1].
  destruct (json_dumps_num _ R1) as (j1 & E1).
  eapply json_dumps_fail_tail; [exact E1|].
  destruct (json_ready (avg_distance st)) eqn:R2;
    [| apply json_dumps_fail_head, json_dumps_round, R2].
  destruct (json_dumps_num _ R2) as (j2 & E2).
  eapply json_dumps_fail_tail; [exact E2|].
  destruct (json_ready (total_distance st)) eqn:R3;
    [| apply json_dumps_fail_head, json_dumps_round, R3].
  destruct (json_dumps_num _ R3) as (j3 & E3).
  eapply json_dumps_fail_tail; [exact E3|].
  destruct (json_ready (stability st)) eqn:R4;
    [| apply json_dumps_fail_head, json_dumps_round, R4].
  destruct (json_dumps_num _ R4) as (j4 & E4).
  eapply json_dumps_fail_tail; [exact E4|].
  destruct (json_ready (coverage_area st)) eqn:R5; [discriminate Hr|].
  apply json_dumps_fail_head, json_dumps_round, R5.
Qed.

Lemma ready_is_success read_csv csv df st :
  read_csv csv = inr df -> extract_statistics df = inr st ->
  statistics_ready st = true ->
  is_success (analyze_gaze_data read_csv csv) = true.
Proof.
  intros Hdf Hst Hr.
  destruct (ready_statistics_succeed read_csv csv df st Hdf Hst Hr)
    as (j & Hj).
  unfold analyze_gaze_data. rewrite Hj.
  apply success_shape in Hj as (_ & _ & _ & _ & _ & _ & Hs & _).
  exact Hs.
Qed.

Lemma unready_is_failure read_csv csv df st :
  read_csv csv = inr df -> extract_statistics df = inr st ->
  statistics_ready st = false ->
  analyze_gaze_data read_csv csv = error_result (TypeError int64_message).
Proof.
  intros Hdf Hst Hr. unfold analyze_gaze_data.
  rewrite (unready_statistics_fail read_csv csv df st Hdf Hst Hr).
  reflexivity.
Qed.

(** X2: on a table whose columns are [int64], [float64] or text, once the
    statistics are derived, the pipeline answers with the Success variant
    exactly when none of them is a [numpy.int64]; otherwise [json.dumps]
    raises and the answer is the Failure variant with the description of
    that [TypeError]. *)
Theorem success_iff_serialisable read_csv csv df st :
  read_csv csv = inr df -> int64_frame df = true ->
  extract_statistics df = inr st ->
  (statistics_ready st = true ->
     is_success (analyze_gaze_data read_csv csv) = true) /\
  (statistics_ready st = false ->
     analyze_gaze_data read_csv csv = error_result (TypeError int64_message)).
Proof.
  intros Hdf _ Hst. split; intros Hr.
  - exact (ready_is_success read_csv csv df st Hdf Hst Hr).
  - exact (unready_is_failure read_csv csv df st Hdf Hst Hr).
Qed.

Lemma success_iff_serialisable_witness :
  (statistics_ready example_statistics = true ->
     is_success (analyze_gaze_data sample_reader example_csv) = true) /\
  (statistics_ready example_statistics = false ->
     analyze_gaze_data sample_reader example_csv
     = error_result (TypeError int64_message)).
Proof.
  apply (success_iff_serialisable sample_reader example_csv example_frame
           example_statistics).
  - reflexivity.
  - reflexivity.
  - vm_compute. reflexivity.
Defined.

Lemma extract_statistics_fields df st :
  extract_statistics df = inr st ->
  total_points st = PyInt (Z.of_nat (Pd.len df)) /\
  col_range df "elapsedTime(seconds)" = inr (duration st) /\
  exists xr yr, col_range df "x" = inr xr /\ col_range df "y" = inr yr /\
    coverage_area st = Num.mul xr yr.
Proof.
  unfold extract_statistics.
  destruct (col_range df "elapsedTime(seconds)") as [e | d];
    [discriminate|]. cbn [bind].
  destruct (distances_loop df _ []) as [e | ds]; [discriminate|].
  cbn [bind].
  destruct (col_range df "x") as [e | xr]; [discriminate|]. cbn [bind].
  destruct (col_range df "y") as [e | yr]; [discriminate|]. cbn [bind].
  destruct (compute_stability df ds) as [e | s]; [discriminate|].
  cbn [bind ret]. intros H. injection H as <-. cbn.
  split; [reflexivity|]. split; [reflexivity|]. eauto.
Qed.

Lemma col_range_int df name z l :
  Pd.getitem df name = inr (SInt (z :: l)) ->
  exists d, col_range df name = inr (NpInt d).
Proof.
  intros Hg. unfold col_range. rewrite Hg. cbn. eexists. reflexivity.
Qed.

Lemma statistics_unready_duration st d :
  duration st = NpInt d -> statistics_ready st = false.
Proof.
  intros H. unfold statistics_ready. rewrite H. cbn [json_ready].
  rewrite andb_false_r. reflexivity.
Qed.

(** X3: a table whose elapsed-time column holds integers never gets the
    Success variant: the duration is a [numpy.int64], which [json.dumps]
    refuses; when the statistics are derived the error is that
    [TypeError]. *)
Theorem integer_timestamps_fail read_csv csv df z l :
  read_csv csv = inr df ->
  Pd.getitem df "elapsedTime(seconds)" = inr (SInt (z :: l)) ->
  is_failure (analyze_gaze_data read_csv csv) = true /\
  is_success (analyze_gaze_data read_csv csv) = false /\
  (forall st, extract_statistics df = inr st ->
     analyze_gaze_data read_csv csv
     = error_result (TypeError int64_message)).
Proof.
  intros Hdf Ht.
  assert (Hst : forall st, extract_statistics df = inr st ->
            analyze_gaze_data read_csv csv
            = error_result (TypeError int64_message)).
  { intros st Hst.
    apply (unready_is_failure read_csv csv df st Hdf Hst).
    destruct (col_range_int df _ z l Ht) as (d & Hd).
    apply (statistics_unready_duration st d).
    apply extract_statistics_fields in Hst as (_ & Hdur & _).
    congruence. }
  destruct (extract_statistics df) as [e | st] eqn:Est.
  - assert (Hb : analyze_body read_csv csv = inl e).
    { unfold analyze_body. rewrite Hdf. cbn [bind]. rewrite Est.
      reflexivity. }
    unfold analyze_gaze_data. rewrite Hb.
    repeat split; try apply failure_shape; try discriminate.
  - rewrite (Hst st eq_refl).
    repeat split; try apply failure_shape; try reflexivity.
Qed.

Lemma integer_timestamps_fail_witness :
  is_failure (analyze_gaze_data sample_reader int_row_csv) = true /\
  is_success (analyze_gaze_data sample_reader int_row_csv) = false /\
  (forall st, extract_statistics int_row_frame = inr st ->
     analyze_gaze_data sample_reader int_row_csv
     = error_result (TypeError int64_message)).
Proof.
  apply (integer_timestamps_fail sample_reader int_row_csv int_row_frame
           0 []);
    reflexivity.
Defined.

Lemma stability_ready v :
  json_ready (Num.sub (PyInt 100)
                (Num.min (Num.mul (Float v) (PyInt 10)) (PyInt 100))) = true.
Proof.
  unfold Num.min.
  destruct (Num.ltb (PyInt 100) (Num.mul (Float v) (PyInt 10))); reflexivity.
Qed.

Section FloatTable.

Variable df : DataFrame.
Variables ts xs ys : list float.
Hypothesis Ht : Pd.getitem df "elapsedTime(seconds)" = inr (SFloat ts).
Hypothesis Hx : Pd.getitem df "x" = inr (SFloat xs).
Hypothesis Hy : Pd.getitem df "y" = inr (SFloat ys).
Hypothesis Hlt : List.length ts = Pd.len df.
Hypothesis Hlx : List.length xs = Pd.len df.
Hypothesis Hly : List.length ys = Pd.len df.

Lemma compute_stability_float ds :
  List.length ds = (Pd.len df - 1)%nat ->
  exists s, compute_stability df ds = inr s /\ json_ready s = true.
Proof.
  intros Hds. unfold compute_stability.
  destruct (Nat.ltb 1 (List.length ds)).
  - rewrite Ht. cbn [bind np_diff ret].
    destruct (divide_spec ds (Pd.diffF ts)) as (speeds & -> & _).
    { rewrite diffF_length. lia. }
    cbn [bind]. eexists. split; [reflexivity | apply stability_ready].
  - exists (PyInt 50). split; reflexivity.
Qed.

Lemma float_table_statistics :
  exists st, extract_statistics df = inr st /\ statistics_ready st = true.
Proof.
  unfold extract_statistics.
  destruct (col_range_float df "elapsedTime(seconds)" ts Ht) as (fd & ->).
  cbn [bind].
  destruct (distances_loop_float df ts xs ys Hx Hy Hlt Hlx Hly
              (seq 1 (Pd.len df - 1)) []) as (ds & -> & Hlen).
  { apply Forall_forall. intros k Hk. apply in_seq in Hk. lia. }
  rewrite length_seq in Hlen. cbn [bind app].
  destruct (col_range_float df "x" xs Hx) as (fx & ->).
  destruct (col_range_float df "y" ys Hy) as (fy & ->).
  cbn [bind].
  destruct (compute_stability_float ds Hlen) as (s & -> & Hs).
  cbn [bind ret]. eexists. split; [reflexivity|].
  unfold statistics_ready. cbn [total_points duration avg_distance
    total_distance stability coverage_area]. rewrite Hs.
  destruct (negb (Nat.eqb (List.length ds) 0)); reflexivity.
Qed.

End FloatTable.

(** X4: a table whose three columns are [float64] never fails, whatever
    its values (NaN and infinities included) and however many rows it
    has. *)
Theorem float_table_succeeds read_csv csv df ts xs ys :
  read_csv csv = inr df ->
  Pd.getitem df "elapsedTime(seconds)" = inr (SFloat ts) ->
  Pd.getitem df "x" = inr (SFloat xs) ->
  Pd.getitem df "y" = inr (SFloat ys) ->
  List.length ts = Pd.len df ->
  List.length xs = Pd.len df ->
  List.length ys = Pd.len df ->
  is_success (analyze_gaze_data read_csv csv) = true.
Proof.
  intros Hdf Ht Hx Hy Hlt Hlx Hly.
  destruct (float_table_statistics df ts xs ys Ht Hx Hy Hlt Hlx Hly)
    as (st & Hst & Hr).
  exact (ready_is_success read_csv csv df st Hdf Hst Hr).
Qed.

Lemma float_table_succeeds_witness :
  is_success (analyze_gaze_data sample_reader example_csv) = true.
Proof.
  apply (float_table_succeeds sample_reader example_csv example_frame
           [0.000; 0.016; 0.032; 0.048; 0.064]%float
           [100.50; 101.20; 102.10; 103.05; 104.15]%float
           [200.30; 201.15; 202.05; 203.20; 204.35]%float);
    reflexivity.
Defined.

(** ** Empty, incomplete and non-numeric tables *)

Lemma col_range_empty df name s :
  Pd.getitem df name = inr s -> Pd.size s = 0%nat ->
  col_range df name = inr (Float nan).
Proof.
  intros Hg Hs. unfold col_range. rewrite Hg. cbn [bind].
  destruct s as [[| z l] | [| f l] | [| a l]]; try discriminate; reflexivity.
Qed.

(** X5: a table with a header and no row is not rejected.  The extrema of
    its empty columns are NaN, so duration and coverage are NaN, the total
    is NaN, and the answer is the Success variant with score 100 and the
    label "Excellent attention patterns". *)
Theorem empty_table_scores_100 read_csv csv df st sx sy :
  read_csv csv = inr df -> Pd.len df = 0%nat ->
  Pd.getitem df "elapsedTime(seconds)" = inr st -> Pd.size st = 0%nat ->
  Pd.getitem df "x" = inr sx -> Pd.size sx = 0%nat ->
  Pd.getitem df "y" = inr sy -> Pd.size sy = 0%nat ->
  analyze_gaze_data read_csv csv =
    JObject
      [ ("score", JInt 100);
        ("analysis", JObject
          [ ("total_points", JInt 0);
            ("duration_seconds", JFloat nan);
            ("average_movement", JInt 0);
            ("total_movement", JInt 0);
            ("stability_score", JInt 50);
            ("coverage_area", JFloat nan) ]);
        ("message",
          JString "Analysis completed: Excellent attention patterns") ].
Proof.
  intros Hdf Hlen Ht Hst Hx Hsx Hy Hsy.
  unfold analyze_gaze_data, analyze_body. rewrite Hdf. cbn [bind].
  rewrite (few_rows_extract df (Float nan) (Float nan) (Float nan));
    try (eapply col_range_empty; eassumption); [| lia].
  rewrite Hlen. vm_compute. reflexivity.
Qed.

Lemma empty_table_scores_100_witness :
  analyze_gaze_data (fun _ => ret header_only_frame) "" =
    JObject
      [ ("score", JInt 100);
        ("analysis", JObject
          [ ("total_points", JInt 0);
            ("duration_seconds", JFloat nan);
            ("average_movement", JInt 0);
            ("total_movement", JInt 0);
            ("stability_score", JInt 50);
            ("coverage_area", JFloat nan) ]);
        ("message",
          JString "Analysis completed: Excellent attention patterns") ].
Proof.
  apply (empty_table_scores_100 (fun _ => ret header_only_frame) ""
           header_only_frame (SObj []) (SObj []) (SObj [])); reflexivity.
Defined.

Lemma analyze_of_extract_error read_csv csv df e :
  read_csv csv = inr df -> extract_statistics df = inl e ->
  analyze_gaze_data read_csv csv = error_result e.
Proof.
  intros Hdf He. unfold analyze_gaze_data, analyze_body.
  rewrite Hdf. cbn [bind]. rewrite He. reflexivity.
Qed.

Lemma getitem_error df name e :
  Pd.getitem df name = inl e -> e = KeyError name.
Proof.
  induction df as [| [k s] rest IH]; cbn.
  - intros H. injection H as <-. reflexivity.
  - destruct (String.eqb k name); [discriminate | exact IH].
Qed.

Lemma col_range_missing df name e :
  Pd.getitem df name = inl e -> col_range df name = inl (KeyError name).
Proof.
  intros H. unfold col_range. rewrite H. cbn [bind].
  rewrite (getitem_error df name e H). reflexivity.
Qed.

(** X6: without the elapsed-time column the answer is the Failure variant
    whose [error] is the quoted column name, whatever else the table
    holds: this column is read first. *)
Theorem missing_time_column read_csv csv df e :
  read_csv csv = inr df ->
  Pd.getitem df "elapsedTime(seconds)" = inl e ->
  analyze_gaze_data read_csv csv
  = error_result (KeyError "elapsedTime(seconds)") /\
  error_of (analyze_gaze_data read_csv csv) = Some "'elapsedTime(seconds)'".
Proof.
  intros Hdf Ht.
  assert (H : analyze_gaze_data read_csv csv
              = error_result (KeyError "elapsedTime(seconds)")).
  { apply (analyze_of_extract_error read_csv csv df _ Hdf).
    unfold extract_statistics. rewrite (col_range_missing df _ e Ht).
    reflexivity. }
  rewrite H. split; reflexivity.
Qed.

Lemma missing_time_column_witness :
  analyze_gaze_data (fun _ => ret no_time_frame) "" =
    error_result (KeyError "elapsedTime(seconds)") /\
  error_of (analyze_gaze_data (fun _ => ret no_time_frame) "")
  = Some "'elapsedTime(seconds)'".
Proof.
  apply (missing_time_column (fun _ => ret no_time_frame) "" no_time_frame
           (KeyError "elapsedTime(seconds)")); reflexivity.
Defined.

Lemma iloc_missing df i name e :
  (i < Pd.len df)%nat -> Pd.getitem df name = inl e ->
  Pd.iloc df i name = inl (KeyError name).
Proof.
  intros Hi H. unfold Pd.iloc.
  destruct (Nat.leb_spec (Pd.len df) i); [lia|].
  rewrite H. cbn [bind]. rewrite (getitem_error df name e H). reflexivity.
Qed.

Lemma seq_from_one n :
  (2 <= n)%nat -> seq 1 (n - 1) = 1%nat :: seq 2 (n - 2).
Proof.
  intros H. destruct n as [| [| n]]; try lia.
  cbn. rewrite Nat.sub_0_r. reflexivity.
Qed.

(** X7: when the duration can be computed and the [x] column is absent,
    the [error] is ['x'], with two rows or more (raised in the distance
    loop) as with fewer (raised by the coverage computation). *)
Theorem missing_x_column read_csv csv df d e :
  read_csv csv = inr df ->
  col_range df "elapsedTime(seconds)" = inr d ->
  Pd.getitem df "x" = inl e ->
  analyze_gaze_data read_csv csv = error_result (KeyError "x") /\
  error_of (analyze_gaze_data read_csv csv) = Some "'x'".
Proof.
  intros Hdf Hd Hx.
  assert (H : analyze_gaze_data read_csv csv = error_result (KeyError "x")).
  { apply (analyze_of_extract_error read_csv csv df _ Hdf).
    unfold extract_statistics. rewrite Hd. cbn [bind].
    destruct (Nat.le_gt_cases 2 (Pd.len df)) as [Hlen | Hlen].
    - rewrite (seq_from_one _ Hlen). cbn [distances_loop].
      unfold step_distance.
      rewrite (iloc_missing df 1 "x" e) by (assumption || lia).
      reflexivity.
    - replace (Pd.len df - 1)%nat with 0%nat by lia.
      cbn [seq distances_loop ret bind].
      rewrite (col_range_missing df _ e Hx). reflexivity. }
  rewrite H. split; reflexivity.
Qed.

Lemma missing_x_column_witness :
  analyze_gaze_data (fun _ => ret no_x_frame) "" =
    error_result (KeyError "x") /\
  error_of (analyze_gaze_data (fun _ => ret no_x_frame) "") = Some "'x'".
Proof.
  apply (missing_x_column (fun _ => ret no_x_frame) "" no_x_frame
           (Float 0.5) (KeyError "x")); reflexivity.
Defined.

Lemma cell_numeric s i :
  numeric s = true -> (i < Pd.size s)%nat ->
  exists n, Pd.cell s i = Some (VNum n).
Proof.
  destruct s as [l | l | l]; try discriminate; intros _ Hi; cbn in *.
  - destruct (nth_error l i) eqn:E; [eexists; reflexivity|].
    apply nth_error_None in E. lia.
  - destruct (nth_error l i) eqn:E; [eexists; reflexivity|].
    apply nth_error_None in E. lia.
Qed.

Lemma iloc_numeric df i name s :
  Pd.getitem df name = inr s -> numeric s = true ->
  Pd.size s = Pd.len df -> (i < Pd.len df)%nat ->
  exists n, Pd.iloc df i name = inr (VNum n).
Proof.
  intros Hg Hn Hs Hi. unfold Pd.iloc.
  destruct (Nat.leb_spec (Pd.len df) i); [lia|].
  rewrite Hg. cbn [bind].
  destruct (cell_numeric s i Hn) as (n & ->); [lia|].
  destruct (Pd.row_dtype df); cbn [Pd.upcast]; eexists; reflexivity.
Qed.

Lemma col_range_numeric df name s :
  Pd.getitem df name = inr s -> numeric s = true ->
  exists r, col_range df name = inr r.
Proof.
  intros Hg Hn. unfold col_range. rewrite Hg. cbn [bind].
  destruct s as [[| z l] | l | l]; try discriminate; cbn;
    eexists; reflexivity.
Qed.

(** X8: when the duration can be computed, the [x] column is numeric and
    the [y] column is absent, the [error] is ['y']. *)
Theorem missing_y_column read_csv csv df d sx e :
  read_csv csv = inr df ->
  col_range df "elapsedTime(seconds)" = inr d ->
  Pd.getitem df "x" = inr sx -> numeric sx = true ->
  Pd.size sx = Pd.len df ->
  Pd.getitem df "y" = inl e ->
  analyze_gaze_data read_csv csv = error_result (KeyError "y") /\
  error_of (analyze_gaze_data read_csv csv) = Some "'y'".
Proof.
  intros Hdf Hd Hx Hn Hs Hy.
  assert (H : analyze_gaze_data read_csv csv = error_result (KeyError "y")).
  { apply (analyze_of_extract_error read_csv csv df _ Hdf).
    unfold extract_statistics. rewrite Hd. cbn [bind].
    destruct (Nat.le_gt_cases 2 (Pd.len df)) as [Hlen | Hlen].
    - rewrite (seq_from_one _ Hlen). cbn [distances_loop].
      unfold step_distance.
      destruct (iloc_numeric df 1 "x" sx Hx Hn Hs) as (n1 & ->); [lia|].
      cbn [bind Nat.sub].
      destruct (iloc_numeric df 0 "x" sx Hx Hn Hs) as (n0 & ->); [lia|].
      cbn [bind val_sub ret].
      rewrite (iloc_missing df 1 "y" e) by (assumption || lia).
      reflexivity.
    - replace (Pd.len df - 1)%nat with 0%nat by lia.
      cbn [seq distances_loop ret bind].
      destruct (col_range_numeric df "x" sx Hx Hn) as (xr & ->).
      cbn [bind]. rewrite (col_range_missing df _ e Hy). reflexivity. }
  rewrite H. split; reflexivity.
Qed.

Lemma missing_y_column_witness :
  analyze_gaze_data sample_reader no_y_csv = error_result (KeyError "y") /\
  error_of (analyze_gaze_data sample_reader no_y_csv) = Some "'y'".
Proof.
  apply (missing_y_column sample_reader no_y_csv no_y_frame (Float 0.5)
           (SFloat [1.0; 2.0]%float) (KeyError "y")); reflexivity.
Defined.

(** X9: when the elapsed-time column holds text, the first subtraction,
    of its minimum from its maximum, raises, and the [error] is Python's
    message for subtracting two strings. *)
Theorem text_timestamps_fail read_csv csv df s l :
  read_csv csv = inr df ->
  Pd.getitem df "elapsedTime(seconds)" = inr (SObj (s :: l)) ->
  analyze_gaze_data read_csv csv =
    error_result
      (TypeError "unsupported operand type(s) for -: 'str' and 'str'").
Proof.
  intros Hdf Ht.
  apply (analyze_of_extract_error read_csv csv df _ Hdf).
  unfold extract_statistics, col_range. rewrite Ht. reflexivity.
Qed.

Lemma text_timestamps_fail_witness :
  analyze_gaze_data (fun _ => ret text_time_frame) "" =
    error_result
      (TypeError "unsupported operand type(s) for -: 'str' and 'str'").
Proof.
  apply (text_timestamps_fail (fun _ => ret text_time_frame) ""
           text_time_frame "start" ["end"]); reflexivity.
Defined.

(** ** What the Success variant reports *)

(** X10: on the Success variant, [total_points] is the number of rows of
    the parsed table. *)
Theorem success_reports_row_count read_csv csv df :
  read_csv csv = inr df ->
  is_success (analyze_gaze_data read_csv csv) = true ->
  analysis_field "total_points" (analyze_gaze_data read_csv csv)
  = Some (JInt (Z.of_nat (Pd.len df))).
Proof.
  intros Hdf. unfold analyze_gaze_data.
  destruct (analyze_body read_csv csv) as [e | j] eqn:E;
    [intros H; discriminate H|]. intros _.
  unfold analyze_body in E. rewrite Hdf in E. cbn [bind] in E.
  destruct (extract_statistics df) as [e | st] eqn:Est; [discriminate|].
  cbn [bind] in E.
  apply extract_statistics_fields in Est as (Htp & _).
  set (a := calculate_attention_score _ _ _ _ _) in E.
  destruct (clamped_int_label a) as (z & Hi & _).
  { apply calculate_attention_score_clamped. }
  unfold success_result in E. rewrite Hi in E. cbn [bind ret] in E.
  apply json_dumps_dict in E as (ms & -> & Hk).
  unfold analysis_field. cbn [member].
  generalize (Hk "analysis"); cbn [passoc String.eqb Ascii.eqb Bool.eqb].
  intros (v' & Hv & ->).
  apply json_dumps_dict in Hv as (ms' & -> & Hk').
  cbn [member].
  generalize (Hk' "total_points"); cbn [passoc String.eqb Ascii.eqb Bool.eqb].
  intros (v' & Hv & ->). rewrite Htp in Hv. cbn in Hv.
  injection Hv as <-. reflexivity.
Qed.

Lemma success_reports_row_count_witness :
  analysis_field "total_points"
    (analyze_gaze_data sample_reader example_csv) = Some (JInt 5).
Proof.
  apply (success_reports_row_count sample_reader example_csv example_frame).
  - reflexivity.
  - vm_compute. reflexivity.
Defined.

(** ** Statistics that are never negative *)

Lemma nonneg_binary_round m e : nonneg (binary_round prec emax false m e).
Proof.
  destruct (binary_round_sign false m e)
    as [-> | [-> | [-> | (m' & e' & ->)]]]; cbn; auto.
Qed.

Lemma nonneg_binary_normalize z e :
  0 <= z -> nonneg (binary_normalize prec emax z e false).
Proof.
  destruct z as [| p | p]; intros Hz; cbn [binary_normalize].
  - exact I.
  - apply nonneg_binary_round.
  - lia.
Qed.

Lemma nonneg_add x y : nonneg x -> nonneg y -> nonneg (SF64add x y).
Proof.
  destruct x as [sx | sx | | sx mx ex], y as [sy | sy | | sy my ey];
    cbn [nonneg]; intros Hx Hy; subst; try exact I; try reflexivity.
  - destruct sx, sy; exact I.
  - unfold SF64add, SFadd. cbv beta iota zeta. cbn [cond_Zopp].
    apply nonneg_binary_normalize. lia.
Qed.

Lemma nonneg_div x y : nonneg x -> sign_clear y -> nonneg (SF64div x y).
Proof.
  destruct x as [sx | sx | | sx mx ex], y as [sy | sy | | sy my ey];
    cbn [nonneg sign_clear]; intros Hx Hy; subst; try exact I;
    try reflexivity.
  unfold SF64div, SFdiv.
  destruct (SFdiv_core_binary prec emax (Z.pos mx) ex (Z.pos my) ey)
    as [[mz ez] lz].
  apply nonneg_binary_round_aux.
Qed.

Lemma nonneg_not_negative x :
  nonneg x -> SFltb x (S754_zero false) = false.
Proof.
  destruct x as [s | s | | s m e]; cbn [nonneg]; intros H; subst;
    reflexivity.
Qed.

Lemma fnonneg_ltb f : fnonneg f -> Num.ltb (Float f) (PyInt 0) = false.
Proof.
  intros H. cbn [Num.ltb Num.to_float]. rewrite float_of_0.
  rewrite FloatAxioms.ltb_spec, Prim2SF_0. apply nonneg_not_negative, H.
Qed.

Lemma fnonneg_sqrt a : fnonneg (Np.sqrt a).
Proof. unfold fnonneg, Np.sqrt. rewrite sqrt_spec. apply nonneg_sqrt. Qed.

Lemma fold_add_nonneg t : forall acc,
  fnonneg acc -> Forall fnonneg t -> fnonneg (fold_left PrimFloat.add t acc).
Proof.
  induction t as [| x t IH]; intros acc Ha Ht; cbn [fold_left].
  - exact Ha.
  - inversion Ht as [| ? ? Hx Ht']; subst. apply IH; [| exact Ht'].
    unfold fnonneg. rewrite add_spec. apply nonneg_add; assumption.
Qed.

Lemma sum_nonneg l : Forall fnonneg l -> fnonneg (Np.sum l).
Proof.
  destruct l as [| x t]; intros H.
  - unfold fnonneg, Np.sum. rewrite Prim2SF_0. exact I.
  - inversion H; subst. apply fold_add_nonneg; assumption.
Qed.

Lemma mean_nonneg l : Forall fnonneg l -> fnonneg (Np.mean l).
Proof.
  intros H. unfold fnonneg, Np.mean. rewrite div_spec.
  apply nonneg_div; [apply sum_nonneg, H | apply sign_clear_count].
Qed.

Lemma step_distance_nonneg df i d :
  step_distance df i = inr d -> fnonneg d.
Proof.
  unfold step_distance.
  destruct (Pd.iloc df i "x") as [e | xi]; [discriminate|]. cbn [bind].
  destruct (Pd.iloc df (i - 1) "x") as [e | xp]; [discriminate|].
  cbn [bind].
  destruct (val_sub xi xp) as [e | dx]; [discriminate|]. cbn [bind].
  destruct (Pd.iloc df i "y") as [e | yi]; [discriminate|]. cbn [bind].
  destruct (Pd.iloc df (i - 1) "y") as [e | yp]; [discriminate|].
  cbn [bind].
  destruct (val_sub yi yp) as [e | dy]; [discriminate|]. cbn [bind ret].
  intros H. injection H as <-. apply fnonneg_sqrt.
Qed.

Lemma distances_loop_nonneg df range : forall acc ds,
  Forall fnonneg acc -> distances_loop df range acc = inr ds ->
  Forall fnonneg ds.
Proof.
  induction range as [| i rest IH]; intros acc ds Hacc; cbn [distances_loop].
  - intros H. injection H as <-. exact Hacc.
  - destruct (step_distance df i) as [e | d] eqn:Ed; [discriminate|].
    cbn [bind]. apply IH. apply Forall_app. split; [exact Hacc|].
    constructor; [| constructor]. exact (step_distance_nonneg df i d Ed).
Qed.

(** X11: whenever the statistics are derived, the average and the total
    movement are not negative: every distance is a square root, and sums
    and quotients by the count keep the sign (they may be NaN). *)
Theorem movement_never_negative df st :
  extract_statistics df = inr st ->
  Num.ltb (avg_distance st) (PyInt 0) = false /\
  Num.ltb (total_distance st) (PyInt 0) = false.
Proof.
  unfold extract_statistics.
  destruct (col_range df "elapsedTime(seconds)") as [e | d];
    [discriminate|]. cbn [bind].
  destruct (distances_loop df _ []) as [e | ds] eqn:Eds; [discriminate|].
  cbn [bind].
  destruct (col_range df "x") as [e | xr]; [discriminate|]. cbn [bind].
  destruct (col_range df "y") as [e | yr]; [discriminate|]. cbn [bind].
  destruct (compute_stability df ds) as [e | s]; [discriminate|].
  cbn [bind ret]. intros H. injection H as <-.
  cbn [avg_distance total_distance].
  apply distances_loop_nonneg in Eds; [| constructor].
  destruct (negb (Nat.eqb (List.length ds) 0)).
  - split; apply fnonneg_ltb; [apply mean_nonneg | apply sum_nonneg];
      exact Eds.
  - split; reflexivity.
Qed.

Lemma movement_never_negative_witness :
  Num.ltb (avg_distance example_statistics) (PyInt 0) = false /\
  Num.ltb (total_distance example_statistics) (PyInt 0) = false.
Proof.
  apply (movement_never_negative example_frame example_statistics).
  vm_compute. reflexivity.
Defined.

Lemma SFcompare_neg m1 e1 m2 e2 :
  SFcompare (S754_finite true m1 e1) (S754_finite true m2 e2) =
  Some (match e1 ?= e2 with
        | Lt => Gt
        | Gt => Lt
        | Eq => CompOpp (m1 ?= m2)%positive
        end).
Proof. reflexivity. Qed.

Lemma SFleb_neg m1 e1 m2 e2 :
  SFleb (S754_finite true m1 e1) (S754_finite true m2 e2) = true <->
  e2 < e1 \/ (e1 = e2 /\ Z.pos m2 <= Z.pos m1).
Proof.
  unfold SFleb. rewrite SFcompare_neg.
  destruct (Z.compare_spec e1 e2); [destruct (Pos.compare_spec m1 m2)| |];
    cbn [CompOpp]; split; intros; try discriminate; try reflexivity;
    try lia.
Qed.

Lemma nonneg_sub_finite sa ma ea sb mb eb :
  valid_binary (S754_finite sa ma ea) = true ->
  valid_binary (S754_finite sb mb eb) = true ->
  SFleb (S754_finite sb mb eb) (S754_finite sa ma ea) = true ->
  nonneg (SF64sub (S754_finite sa ma ea) (S754_finite sb mb eb)).
Proof.
  intros Va Vb Hle.
  apply SF.valid_finite in Va as (Hea & Hma & Hna).
  apply SF.valid_finite in Vb as (Heb & Hmb & Hnb).
  unfold SF64sub, SFsub. cbv beta iota zeta.
  set (ez := Z.min ea eb).
  destruct (shl_align_spec ma ea ez) as (a' & -> & Ha); [unfold ez; lia|].
  destruct (shl_align_spec mb eb ez) as (b' & -> & Hb); [unfold ez; lia|].
  cbn [fst]. apply nonneg_binary_normalize.
  change (2 ^ 53) with 9007199254740992 in *.
  change (2 ^ 52) with 4503599627370496 in *.
  destruct sa, sb; cbn [cond_Zopp].
  - (* both negative *)
    apply SFleb_neg in Hle.
    destruct (Z.eq_dec ea eb) as [E | E].
    + subst eb. replace (ea - ez) with 0 in * by (unfold ez; lia).
      change (2 ^ 0) with 1 in *. lia.
    + assert (Hlt : ea < eb) by lia.
      replace (ea - ez) with 0 in Ha by (unfold ez; lia).
      replace (eb - ez) with (eb - ea) in Hb by (unfold ez; lia).
      change (2 ^ 0) with 1 in Ha.
      assert (2 ^ 1 <= 2 ^ (eb - ea)) by (apply Z.pow_le_mono_r; lia).
      change (2 ^ 1) with 2 in *.
      assert (4503599627370496 <= Z.pos mb) by (apply Hnb; lia).
      nia.
  - discriminate Hle.
  - lia.
  - (* both positive *)
    apply SF.SFleb_pos in Hle.
    destruct (Z.eq_dec ea eb) as [E | E].
    + subst eb. replace (ea - ez) with 0 in * by (unfold ez; lia).
      change (2 ^ 0) with 1 in *. lia.
    + assert (Hlt : eb < ea) by lia.
      replace (eb - ez) with 0 in Hb by (unfold ez; lia).
      replace (ea - ez) with (ea - eb) in Ha by (unfold ez; lia).
      change (2 ^ 0) with 1 in Hb.
      assert (2 ^ 1 <= 2 ^ (ea - eb)) by (apply Z.pow_le_mono_r; lia).
      change (2 ^ 1) with 2 in *.
      assert (4503599627370496 <= Z.pos ma) by (apply Hna; lia).
      nia.
Qed.

(** [a - b] is not negative when [b <= a]. *)
Lemma nonneg_sub a b :
  valid_binary a = true -> valid_binary b = true ->
  SFleb b a = true -> nonneg (SF64sub a b).
Proof.
  intros Va Vb Hle.
  destruct a as [sa | sa | | sa ma ea], b as [sb | sb | | sb mb eb];
    try (apply nonneg_sub_finite; assumption);
    try discriminate Hle; try exact I;
    try (destruct sa; try discriminate Hle; try exact I; reflexivity);
    try (destruct sb; try discriminate Hle; try exact I; reflexivity);
    destruct sa, sb; try discriminate Hle; try exact I; reflexivity.
Qed.

Lemma nonneg_mul_gen x y : nonneg x -> nonneg y -> nonneg (SF64mul x y).
Proof.
  destruct x as [sx | sx | | sx mx ex], y as [sy | sy | | sy my ey];
    cbn [nonneg]; intros Hx Hy; subst; try exact I; try reflexivity.
  unfold SF64mul, SFmul. cbn [xorb]. apply nonneg_binary_round_aux.
Qed.

(** comparisons of values that are not NaN *)
Lemma not_nan_spec x : Pd.not_nan x = true -> Prim2SF x <> S754_nan.
Proof.
  unfold Pd.not_nan, is_nan. rewrite FloatAxioms.eqb_spec.
  intros H E. rewrite E in H. discriminate H.
Qed.

Lemma SFleb_refl x : x <> S754_nan -> SFleb x x = true.
Proof.
  destruct x as [s | s | | s m e]; intros H; try reflexivity.
  - destruct s; reflexivity.
  - contradiction.
  - unfold SFleb. rewrite SFcompare_refl_finite. reflexivity.
Qed.

Lemma SFcompare_antisym x y :
  SFcompare y x = option_map CompOpp (SFcompare x y).
Proof.
  destruct x as [sx | sx | | sx mx ex], y as [sy | sy | | sy my ey];
    try reflexivity;
    try (destruct sx; reflexivity); try (destruct sy; reflexivity);
    try (destruct sx, sy; reflexivity).
  unfold SFcompare.
  change (Pos.compare_cont Eq my mx) with (Pos.compare my mx).
  change (Pos.compare_cont Eq mx my) with (Pos.compare mx my).
  rewrite (Z.compare_antisym ex ey), (Pos.compare_antisym mx my).
  destruct sx, sy; cbn [option_map]; try reflexivity;
    destruct (ex ?= ey); cbn [CompOpp]; try reflexivity;
    destruct (mx ?= my)%positive; reflexivity.
Qed.

Lemma SFltb_false_leb x y :
  x <> S754_nan -> y <> S754_nan -> SFltb x y = false -> SFleb y x = true.
Proof.
  intros Hx Hy. unfold SFltb, SFleb. rewrite (SFcompare_antisym x y).
  destruct (SFcompare x y) as [[] |] eqn:E; cbn; try discriminate;
    try reflexivity.
  intros _. destruct x, y; try contradiction; cbn in E;
    try discriminate E.
Qed.

Lemma fold_extrema t : forall hi lo,
  Pd.not_nan hi = true -> Pd.not_nan lo = true -> fle lo hi ->
  forallb Pd.not_nan t = true ->
  fle (fold_left Pd.fmin t lo) (fold_left Pd.fmax t hi).
Proof.
  induction t as [| x t IH]; intros hi lo Hhi Hlo Hle Ht; cbn [fold_left].
  - exact Hle.
  - cbn [forallb] in Ht. apply andb_true_iff in Ht as [Hx Ht].
    pose proof (not_nan_spec x Hx) as Nx.
    pose proof (not_nan_spec hi Hhi) as Nhi.
    pose proof (not_nan_spec lo Hlo) as Nlo.
    unfold Pd.fmax, Pd.fmin.
    destruct (hi <? x)%float eqn:E1; destruct (x <? lo)%float eqn:E2;
      apply IH; try assumption; unfold fle.
    + apply SFleb_refl, Nx.
    + rewrite FloatAxioms.ltb_spec in E2. apply SFltb_false_leb; assumption.
    + rewrite FloatAxioms.ltb_spec in E1. apply SFltb_false_leb; assumption.
Qed.

Lemma filter_forallb {A} (f : A -> bool) l : forallb f (filter f l) = true.
Proof.
  induction l as [| x l IH]; cbn; [reflexivity|].
  destruct (f x) eqn:E; cbn; [rewrite E, IH; reflexivity | exact IH].
Qed.

(** the range of a float column is not negative *)
Lemma col_range_float_nonneg df name l r :
  Pd.getitem df name = inr (SFloat l) -> col_range df name = inr r ->
  exists f, r = Float f /\ fnonneg f.
Proof.
  intros Hg. unfold col_range. rewrite Hg.
  cbn [bind Pd.max Pd.min val_sub ret]. intros H. injection H as <-.
  eexists. split; [reflexivity|].
  unfold fnonneg. cbn [Num.to_float]. rewrite sub_spec.
  pose proof (filter_forallb Pd.not_nan l) as Hall.
  destruct (filter Pd.not_nan l) as [| x t]; cbn [Pd.fold1].
  - rewrite Prim2SF_nan. exact I.
  - cbn [forallb] in Hall. apply andb_true_iff in Hall as [Hx Ht].
    apply nonneg_sub; try apply Prim2SF_valid.
    apply fold_extrema; try assumption.
    unfold fle. apply SFleb_refl, not_nan_spec, Hx.
Qed.

(** X12: on [float64] columns the duration and the coverage area are not
    negative (they may be NaN): the maximum of a column is at least its
    minimum, and a rounded difference keeps the sign of the exact one. *)
Theorem float_ranges_never_negative df st ts xs ys :
  extract_statistics df = inr st ->
  Pd.getitem df "elapsedTime(seconds)" = inr (SFloat ts) ->
  Pd.getitem df "x" = inr (SFloat xs) ->
  Pd.getitem df "y" = inr (SFloat ys) ->
  Num.ltb (duration st) (PyInt 0) = false /\
  Num.ltb (coverage_area st) (PyInt 0) = false.
Proof.
  intros Hst Ht Hx Hy.
  apply extract_statistics_fields in Hst
    as (_ & Hd & xr & yr & Hxr & Hyr & Hc).
  split.
  - destruct (col_range_float_nonneg df _ ts _ Ht Hd) as (f & -> & Hf).
    apply fnonneg_ltb, Hf.
  - destruct (col_range_float_nonneg df _ xs _ Hx Hxr) as (fx & -> & Hfx).
    destruct (col_range_float_nonneg df _ ys _ Hy Hyr) as (fy & -> & Hfy).
    rewrite Hc.
    change (Num.mul (Float fx) (Float fy)) with (Float (fx * fy)).
    apply fnonneg_ltb. unfold fnonneg. rewrite mul_spec.
    apply nonneg_mul_gen; assumption.
Qed.

Lemma float_ranges_never_negative_witness :
  Num.ltb (duration example_statistics) (PyInt 0) = false /\
  Num.ltb (coverage_area example_statistics) (PyInt 0) = false.
Proof.
  apply (float_ranges_never_negative example_frame example_statistics
           [0.000; 0.016; 0.032; 0.048; 0.064]%float
           [100.50; 101.20; 102.10; 103.05; 104.15]%float
           [200.30; 201.15; 202.05; 203.20; 204.35]%float);
    vm_compute; reflexivity.
Defined.

(** ** Two rows, and columns that are not read *)

Lemma distances_loop_length df range : forall acc ds,
  distances_loop df range acc = inr ds ->
  List.length ds = (List.length acc + List.length range)%nat.
Proof.
  induction range as [| i rest IH]; intros acc ds; cbn [distances_loop].
  - intros H. injection H as <-. cbn. lia.
  - destruct (step_distance df i) as [e | d]; [discriminate|]. cbn [bind].
    intros H. apply IH in H. rewrite H, length_app. cbn. lia.
Qed.

(** X13: with exactly two rows there is one distance, the test
    [len(distances) > 1] fails, and stability is the default 50: the
    speeds are looked at from three rows on. *)
Theorem two_rows_stability_50 df st :
  Pd.len df = 2%nat -> extract_statistics df = inr st ->
  stability st = PyInt 50.
Proof.
  intros Hlen. unfold extract_statistics.
  destruct (col_range df "elapsedTime(seconds)") as [e | d];
    [discriminate|]. cbn [bind].
  destruct (distances_loop df _ []) as [e | ds] eqn:Eds; [discriminate|].
  cbn [bind].
  destruct (col_range df "x") as [e | xr]; [discriminate|]. cbn [bind].
  destruct (col_range df "y") as [e | yr]; [discriminate|]. cbn [bind].
  apply distances_loop_length in Eds. rewrite length_seq, Hlen in Eds.
  unfold compute_stability. rewrite Eds. cbn [Nat.ltb Nat.leb Nat.sub Nat.add bind ret].
  intros H. injection H as <-. reflexivity.
Qed.

Lemma two_rows_stability_50_witness :
  stability two_row_statistics = PyInt 50.
Proof.
  apply (two_rows_stability_50 two_row_frame two_row_statistics).
  - reflexivity.
  - vm_compute. reflexivity.
Defined.

Section FloatSteps.

Variable df : DataFrame.
Variables xs ys : list float.
Hypothesis Hx : Pd.getitem df "x" = inr (SFloat xs).
Hypothesis Hy : Pd.getitem df "y" = inr (SFloat ys).
Hypothesis Hlx : List.length xs = Pd.len df.
Hypothesis Hly : List.length ys = Pd.len df.

Lemma step_distance_float_eq i :
  (1 <= i < Pd.len df)%nat ->
  step_distance df i = inr (float_step xs ys i).
Proof.
  intros Hi. unfold step_distance.
  rewrite (iloc_float df "x" xs i (nth i xs 0%float) Hx),
    (iloc_float df "x" xs (i - 1) (nth (i - 1) xs 0%float) Hx),
    (iloc_float df "y" ys i (nth i ys 0%float) Hy),
    (iloc_float df "y" ys (i - 1) (nth (i - 1) ys 0%float) Hy);
    try lia; try (apply nth_error_nth'; lia).
  reflexivity.
Qed.

Lemma distances_loop_float_eq range : forall acc,
  Forall (fun i => (1 <= i < Pd.len df)%nat) range ->
  distances_loop df range acc = inr (acc ++ map (float_step xs ys) range)%list.
Proof.
  induction range as [| i rest IH]; intros acc Hr; cbn [distances_loop map].
  - rewrite app_nil_r. reflexivity.
  - inversion Hr as [| ? ? Hi Hrest]; subst.
    rewrite (step_distance_float_eq i Hi). cbn [bind].
    rewrite (IH _ Hrest), <- app_assoc. reflexivity.
Qed.

End FloatSteps.

Lemma col_range_ext df df' name :
  Pd.getitem df name = Pd.getitem df' name ->
  col_range df name = col_range df' name.
Proof. intros H. unfold col_range. rewrite H. reflexivity. Qed.

Lemma compute_stability_ext df df' ds :
  Pd.getitem df "elapsedTime(seconds)" = Pd.getitem df' "elapsedTime(seconds)" ->
  compute_stability df ds = compute_stability df' ds.
Proof. intros H. unfold compute_stability. rewrite H. reflexivity. Qed.

Lemma float_tables_agree df df' ts xs ys :
  Pd.len df = Pd.len df' ->
  Pd.getitem df "elapsedTime(seconds)" = inr (SFloat ts) ->
  Pd.getitem df' "elapsedTime(seconds)" = inr (SFloat ts) ->
  Pd.getitem df "x" = inr (SFloat xs) ->
  Pd.getitem df' "x" = inr (SFloat xs) ->
  Pd.getitem df "y" = inr (SFloat ys) ->
  Pd.getitem df' "y" = inr (SFloat ys) ->
  List.length xs = Pd.len df -> List.length ys = Pd.len df ->
  extract_statistics df = extract_statistics df'.
Proof.
  intros Hlen Ht Ht' Hx Hx' Hy Hy' Hlx Hly.
  unfold extract_statistics.
  rewrite (col_range_ext df df' "elapsedTime(seconds)") by congruence.
  rewrite (col_range_ext df df' "x") by congruence.
  rewrite (col_range_ext df df' "y") by congruence.
  rewrite (distances_loop_float_eq df xs ys Hx Hy Hlx Hly); cycle 1.
  { apply Forall_forall. intros k Hk. apply in_seq in Hk. lia. }
  rewrite (distances_loop_float_eq df' xs ys Hx' Hy'); try congruence; cycle 1.
  { apply Forall_forall. intros k Hk. apply in_seq in Hk. lia. }
  rewrite <- Hlen.
  destruct (col_range df' "elapsedTime(seconds)") as [e | d];
    [reflexivity|]. cbn [bind].
  destruct (col_range df' "x") as [e | xr]; [reflexivity|]. cbn [bind].
  destruct (col_range df' "y") as [e | yr]; [reflexivity|]. cbn [bind].
  rewrite (compute_stability_ext df df') by congruence. reflexivity.
Qed.

(** X14: two tables of the same number of rows that hold the same three
    [float64] columns get the same answer, whatever other columns, of
    whatever dtype, either of them holds. *)
Theorem other_columns_are_ignored read_csv csv df read_csv' csv' df' ts xs ys :
  read_csv csv = inr df -> read_csv' csv' = inr df' ->
  Pd.len df = Pd.len df' ->
  Pd.getitem df "elapsedTime(seconds)" = inr (SFloat ts) ->
  Pd.getitem df' "elapsedTime(seconds)" = inr (SFloat ts) ->
  Pd.getitem df "x" = inr (SFloat xs) ->
  Pd.getitem df' "x" = inr (SFloat xs) ->
  Pd.getitem df "y" = inr (SFloat ys) ->
  Pd.getitem df' "y" = inr (SFloat ys) ->
  List.length xs = Pd.len df -> List.length ys = Pd.len df ->
  analyze_gaze_data read_csv csv = analyze_gaze_data read_csv' csv'.
Proof.
  intros Hdf Hdf' Hlen Ht Ht' Hx Hx' Hy Hy' Hlx Hly.
  unfold analyze_gaze_data, analyze_body. rewrite Hdf, Hdf'. cbn [bind].
  rewrite (float_tables_agree df df' ts xs ys) by assumption.
  reflexivity.
Qed.

Lemma other_columns_are_ignored_witness :
  analyze_gaze_data (fun _ => ret example_frame) example_csv =
  analyze_gaze_data (fun _ => ret annotated_frame) example_csv.
Proof.
  apply (other_columns_are_ignored
           (fun _ => ret example_frame) example_csv example_frame
           (fun _ => ret annotated_frame) example_csv annotated_frame
           [0.000; 0.016; 0.032; 0.048; 0.064]%float
           [100.50; 101.20; 102.10; 103.05; 104.15]%float
           [200.30; 201.15; 202.05; 203.20; 204.35]%float);
    reflexivity.
Defined.
